(** * gddo-server/pkgsite.go: teeing and redirecting godoc.org requests

    A shallow embedding of [gddo-server/pkgsite.go] and of the parts of Go's
    standard library it calls ([strings], [path/filepath], [net/url],
    [net/http]), followed by the properties of the tee filter, the event
    builder and the redirect resolver.

    Go strings are byte sequences: they are modelled as [string], whose
    characters ([ascii]) are the 256 byte values.  Go maps are finite maps
    ([gmap]); the only place where the iteration order of a map could be
    observed, [Values.Encode], sorts the keys first, as the library does. *)

From Stdlib Require Import ZArith NArith Ascii String List Bool Lia.
From stdpp Require Import base option list gmap strings fin_maps sorting.

Local Open Scope string_scope.

(* stdpp blocks the unfolding of string concatenation; the proofs below
   compute with it on literals. *)
#[local] Arguments String.append !_ _ / : simpl nomatch.

(** ** Package [strings] *)

Module strings.

(** [strings.HasPrefix(s, prefix)]:
    [len(s) >= len(prefix) && s[:len(prefix)] == prefix]. *)
Definition HasPrefix (s prefix : string) : bool := String.prefix prefix s.

(** [strings.HasSuffix(s, suffix)]:
    [len(s) >= len(suffix) && s[len(s)-len(suffix):] == suffix]. *)
Definition HasSuffix (s suffix : string) : bool :=
  (String.length suffix <=? String.length s)%nat
  && String.eqb
       (String.substring (String.length s - String.length suffix)
                         (String.length suffix) s)
       suffix.

(** [strings.Contains(s, substr)]: [substr] occurs at some index of [s]. *)
Fixpoint Contains (s substr : string) : bool :=
  HasPrefix s substr
  || match s with
     | EmptyString => false
     | String _ s' => Contains s' substr
     end.

(** [strings.Cut(s, sep)] for a one-byte separator: the text before and
    after the first [sep], and whether [sep] was found; when it is not,
    [before] is all of [s] and [after] is empty. *)
Fixpoint Cut (s : string) (sep : ascii) : string * string * bool :=
  match s with
  | EmptyString => (EmptyString, EmptyString, false)
  | String c s' =>
      if Ascii.eqb c sep then (EmptyString, s', true)
      else let '(before, after, found) := Cut s' sep in
           (String c before, after, found)
  end.

(** The successive [before] parts obtained by cutting [s] at [sep] until
    nothing is left, as in the loop
    [for s != "" { part, s, _ = strings.Cut(s, sep); ... }];
    a trailing empty piece stands for the end of the loop. *)
Fixpoint pieces (sep : ascii) (s : string) : list string :=
  match s with
  | EmptyString => [EmptyString]
  | String c s' =>
      if Ascii.eqb c sep then EmptyString :: pieces sep s'
      else match pieces sep s' with
           | p :: ps => String c p :: ps
           | [] => [String c EmptyString]
           end
  end.

End strings.

(** ** Package [path/filepath] *)

Module filepath.

(** [os.IsPathSeparator] on the platform the server runs on (Unix). *)
Definition IsPathSeparator (c : ascii) : bool := Ascii.eqb c "/".

(** The loop of [filepath.Ext]:
    [for i := len(path) - 1; i >= 0 && !os.IsPathSeparator(path[i]); i--
       { if path[i] == '.' { return path[i:] } }; return ""].
    [Ext_from path n] runs it from [i = n - 1] downwards. *)
Fixpoint Ext_from (path : string) (n : nat) : string :=
  match n with
  | O => EmptyString
  | S i =>
      match String.get i path with
      | None => EmptyString
      | Some c =>
          if IsPathSeparator c then EmptyString
          else if Ascii.eqb c "." then
                 String.substring i (String.length path - i) path
               else Ext_from path i
      end
  end.

Definition Ext (path : string) : string :=
  Ext_from path (String.length path).

End filepath.


(** ** Package [net/url] *)

Module url.

(** The escaping modes of [net/url] that the program reaches: the path
    and the host of [URL.String], and the query components of
    [Values.Encode] and [ParseQuery]. *)
Inductive encoding : Type :=
| encodePath
| encodeHost
| encodeQueryComponent.

Definition between (lo hi c : ascii) : bool :=
  Ascii.leb lo c && Ascii.leb c hi.

Definition isAlnum (c : ascii) : bool :=
  between "a" "z" c || between "A" "Z" c || between "0" "9" c.

Definition oneOf (cs : string) (c : ascii) : bool :=
  existsb (Ascii.eqb c) (list_ascii_of_string cs).

(** [shouldEscape(c, mode)]: unreserved characters are never escaped;
    the host keeps the sub-delimiters, the colon, the brackets, the angle
    brackets and the double quote (byte 34); the path keeps
    every reserved character but [?]; a query component keeps none. *)
Definition shouldEscape (c : ascii) (mode : encoding) : bool :=
  if isAlnum c then false
  else if match mode with
          | encodeHost => oneOf "!$&'()*+,;=:[]<>" c || Ascii.eqb c "034"
          | _ => false
          end then false
  else if oneOf "-_.~" c then false
  else if oneOf "$&+,/:;=?@" c then
    match mode with
    | encodePath => Ascii.eqb c "?"
    | encodeQueryComponent => true
    | encodeHost => true
    end
  else true.

(** [upperhex[n]] for [n < 16]. *)
Definition upperhex (n : N) : ascii :=
  match String.get (N.to_nat n) "0123456789ABCDEF" with
  | Some d => d
  | None => "0"%char
  end.

Definition escapeByte (c : ascii) (mode : encoding) : string :=
  if shouldEscape c mode then
    if Ascii.eqb c " " && match mode with
                          | encodeQueryComponent => true
                          | _ => false
                          end
    then "+"
    else String "%" (String (upperhex (N.shiftr (N_of_ascii c) 4))
                    (String (upperhex (N.land (N_of_ascii c) 15))
                     EmptyString))
  else String c EmptyString.

(** [escape(s, mode)]. *)
Fixpoint escape (s : string) (mode : encoding) : string :=
  match s with
  | EmptyString => EmptyString
  | String c s' => escapeByte c mode ++ escape s' mode
  end.

Definition QueryEscape (s : string) : string := escape s encodeQueryComponent.

Definition ishex (c : ascii) : bool :=
  between "0" "9" c || between "a" "f" c || between "A" "F" c.

Definition unhex (c : ascii) : N :=
  if between "0" "9" c then N_of_ascii c - N_of_ascii "0"
  else if between "a" "f" c then N_of_ascii c - N_of_ascii "a" + 10
  else if between "A" "F" c then N_of_ascii c - N_of_ascii "A" + 10
  else 0.

(** [QueryUnescape(s)], that is [unescape(s, encodeQueryComponent)]:
    [%XY] is the byte with hexadecimal digits [XY], [+] is a space, and a
    [%] that is not followed by two hexadecimal digits is an error. *)
Fixpoint QueryUnescape (s : string) : option string :=
  match s with
  | EmptyString => Some EmptyString
  | String "%" (String a (String b rest)) =>
      if ishex a && ishex b then
        String (ascii_of_N (N.lor (N.shiftl (unhex a) 4) (unhex b)))
          <$> QueryUnescape rest
      else None
  | String "%" _ => None
  | String "+" rest => String " " <$> QueryUnescape rest
  | String c rest => String c <$> QueryUnescape rest
  end.

(** [type Values map[string][]string]. *)
Abbreviation Values := (gmap string (list string)).

(** [v[key]], the nil slice when the key is missing. *)
Definition index (v : Values) (key : string) : list string :=
  default [] (v !! key).

(** [_, ok := v[key]]. *)
Definition has (v : Values) (key : string) : bool :=
  bool_decide (is_Some (v !! key)).

(** [Values.Get]: the first value of the key, or the empty string. *)
Definition Get (v : Values) (key : string) : string :=
  match index v key with
  | x :: _ => x
  | [] => EmptyString
  end.

(** [Values.Set]. *)
Definition Set_ (v : Values) (key value : string) : Values :=
  <[key := [value]]> v.

(** [Values.Add]. *)
Definition Add (v : Values) (key value : string) : Values :=
  <[key := (index v key ++ [value])%list]> v.

(** [Values.Encode]: [key=value] pairs, both escaped, joined by [&],
    sorted by key. *)
Definition Encode (v : Values) : string :=
  String.concat "&"
    (k ← merge_sort String.le (map_to_list v).*1;
     (λ x, QueryEscape k ++ "=" ++ QueryEscape x) <$> index v k).

(** One turn of the loop of [parseQuery] on a piece: pieces with a
    semicolon (an error since Go 1.17), empty pieces and pieces that do
    not unescape are skipped. *)
Definition parsePiece (m : Values) (piece : string) : Values :=
  if strings.Contains piece ";" then m
  else if String.eqb piece "" then m
  else
    let '(key, value, _) := strings.Cut piece "=" in
    match QueryUnescape key with
    | None => m
    | Some key =>
        match QueryUnescape value with
        | None => m
        | Some value => <[key := (index m key ++ [value])%list]> m
        end
    end.

(** [ParseQuery(query)] without its error: the values parsed from the
    well-formed pieces. *)
Definition ParseQuery (query : string) : Values :=
  foldl parsePiece ∅ (strings.pieces "&" query).

(** [type URL struct]: the fields the program reads or sets; it leaves
    [Opaque], [User], [RawPath], [ForceQuery] and the fragment at their
    zero values. *)
Record URL : Type := mkURL {
  Scheme : string;
  Host : string;
  Path : string;
  RawQuery : string
}.

(** The assignments [u.Path = p] and [u.RawQuery = q]. *)
Definition setPath (u : URL) (p : string) : URL :=
  mkURL (Scheme u) (Host u) p (RawQuery u).
Definition setRawQuery (u : URL) (q : string) : URL :=
  mkURL (Scheme u) (Host u) (Path u) q.
Definition setHost (u : URL) (h : string) : URL :=
  mkURL (Scheme u) h (Path u) (RawQuery u).

(** [URL.Query]: [ParseQuery(u.RawQuery)], errors dropped. *)
Definition Query (u : URL) : Values := ParseQuery (RawQuery u).

(** [URL.EscapedPath] when [RawPath] is empty. *)
Definition EscapedPath (u : URL) : string :=
  if String.eqb (Path u) "*" then "*" else escape (Path u) encodePath.

Definition nonEmpty (s : string) : bool := negb (String.eqb s "").

(** [URL.String] for a URL without opaque part, user and fragment. *)
Definition String_ (u : URL) : string :=
  let scheme := if nonEmpty (Scheme u) then Scheme u ++ ":" else "" in
  let authority :=
    if nonEmpty (Scheme u) || nonEmpty (Host u) then
      (if nonEmpty (Host u) || nonEmpty (Path u) then "//" else "")
      ++ escape (Host u) encodeHost
    else "" in
  let path := EscapedPath u in
  let slash :=
    match path with
    | String c _ => if negb (Ascii.eqb c "/") && nonEmpty (Host u)
                    then "/" else ""
    | EmptyString => ""
    end in
  let dot :=
    if String.eqb (scheme ++ authority ++ slash) ""
       && strings.Contains (fst (fst (strings.Cut path "/"))) ":"
    then "./" else "" in
  let query := if nonEmpty (RawQuery u) then "?" ++ RawQuery u else "" in
  scheme ++ authority ++ slash ++ dot ++ path ++ query.

End url.

(** ** Package [net/http] *)

Module http.

(** [type Header map[string][]string]. *)
Abbreviation Header := (gmap string (list string)).

(** [type Cookie struct]; [Expires = None] is the zero time (no expiry
    attribute) and [MaxAge = 0] means no [Max-Age] attribute, [MaxAge < 0]
    means delete the cookie now. *)
Record Cookie : Type := mkCookie {
  Name : string;
  Value : string;
  Path : string;
  Domain : string;
  Expires : option Z;
  MaxAge : Z;
  Secure : bool;
  HttpOnly : bool
}.

(** The form parameters that [ParseMultipartForm] reads from the body of
    a request, by the encoding of the body: none, those of a URL-encoded
    body (of a POST, PUT or PATCH request), or those of a
    [multipart/form-data] body. *)
Inductive formBody : Type :=
| noBody
| urlencoded (values : url.Values)
| multipart (values : url.Values).

(** [type Request struct]: the parsed URL, the transport-level host, the
    header, the form parameters of the body ([PostForm]) and the cookies
    of the [Cookie] header in the order [readCookies] yields them. *)
Record Request : Type := mkRequest {
  URL : url.URL;
  Host : string;
  Header_ : Header;
  PostForm : formBody;
  Cookies : list Cookie
}.

(** The same request with other cookies; used to state what a decision
    does not depend on. *)
Definition withCookies (r : Request) (cs : list Cookie) : Request :=
  mkRequest (URL r) (Host r) (Header_ r) (PostForm r) cs.

(** [r.Form[key]] after [ParseMultipartForm]: [ParseForm] puts the values
    of a URL-encoded body before those of the URL query, and the values of
    a multipart body are appended after them. *)
Definition Form (r : Request) (key : string) : list string :=
  match PostForm r with
  | noBody => url.index (url.Query (URL r)) key
  | urlencoded body =>
      (url.index body key ++ url.index (url.Query (URL r)) key)%list
  | multipart body =>
      (url.index (url.Query (URL r)) key ++ url.index body key)%list
  end.

(** [Request.FormValue]: the first value of [r.Form[key]], or the empty
    string. *)
Definition FormValue (r : Request) (key : string) : string :=
  match Form r key with
  | x :: _ => x
  | [] => EmptyString
  end.

(** [Request.Cookie]: the first cookie of that name; [None] stands for
    [ErrNoCookie]. *)
Definition Cookie_ (r : Request) (name : string) : option Cookie :=
  if String.eqb name "" then None
  else List.find (λ c, String.eqb (Name c) name) (Cookies r).

Definition StatusFound : Z := 302.

(** What a handler has written to its [ResponseWriter]: the cookies of
    the [Set-Cookie] header lines, in order, and the location and status
    of a redirect, if one was sent. *)
Record ResponseWriter : Type := mkResponseWriter {
  SetCookies : list Cookie;
  Redirected : option (string * Z)
}.

(** [httpguts.IsTokenRune] on bytes. *)
Definition isToken (c : ascii) : bool :=
  url.isAlnum c || url.oneOf "!#$%&'*+-.^_`|~" c.

(** [isCookieNameValid]. *)
Definition isCookieNameValid (raw : string) : bool :=
  url.nonEmpty raw && forallb isToken (list_ascii_of_string raw).

(** [http.SetCookie]: adds a [Set-Cookie] line, unless the cookie's name
    is invalid. *)
Definition SetCookie (w : ResponseWriter) (cookie : Cookie) : ResponseWriter :=
  if isCookieNameValid (Name cookie) then
    mkResponseWriter (SetCookies w ++ [cookie])%list (Redirected w)
  else w.

(** [http.Redirect] with an absolute URL: the location and the status
    are written. *)
Definition Redirect (w : ResponseWriter) (r : Request) (target : string)
    (code : Z) : ResponseWriter :=
  mkResponseWriter (SetCookies w) (Some (target, code)).

End http.

(** ** Package [main]: [gddo-server/pkgsite.go] *)

(** A Go [error]: [None] is [nil]. *)
Definition error : Type := option string.

(** The handlers wrapped by [pkgGoDevRedirectHandler]:
    [func(http.ResponseWriter, *http.Request) error], with the writes to
    the response made explicit. *)
Definition handler : Type :=
  http.ResponseWriter → http.Request → http.ResponseWriter * error.

(** [doNotTeeURLsToPkgGoDev] are paths that should not be teed to
    pkg.go.dev. *)
Definition doNotTeeURLsToPkgGoDev : gmap string bool :=
  <["/-/bot" := true]> (<["/-/refresh" := true]> ∅).

(** [doNotTeeExtsToPkgGoDev] are URL extensions that should not be teed to
    pkg.go.dev. *)
Definition doNotTeeExtsToPkgGoDev : gmap string bool :=
  <[".css" := true]> (<[".html" := true]> (<[".js" := true]>
    (<[".txt" := true]> (<[".xml" := true]> ∅)))).

(** [m[k]] on a [map[string]bool]: [false] for a missing key. *)
Definition lookupBool (m : gmap string bool) (k : string) : bool :=
  default false (m !! k).

(** [shouldTeeRequest] reports whether a request should be teed to
    pkg.go.dev. *)
Definition shouldTeeRequest (u : string) : bool :=
  if strings.HasPrefix u "/_ah/" then false
  else
    let ext := filepath.Ext u in
    if lookupBool doNotTeeExtsToPkgGoDev ext then false
    else if lookupBool doNotTeeURLsToPkgGoDev u then false
    else true.

Definition pkgGoDevRedirectCookie : string := "pkggodev-redirect".
Definition pkgGoDevRedirectParam : string := "redirect".
Definition pkgGoDevRedirectOn : string := "on".
Definition pkgGoDevRedirectOff : string := "off".
Definition pkgGoDevHost : string := "pkg.go.dev".
Definition teeproxyHost : string := "teeproxy-dot-go-discovery.appspot.com".

Definition userReturningFromPkgGoDev (req : http.Request) : bool :=
  String.eqb (http.FormValue req "utm_source") "backtogodoc".

Definition shouldRedirectToPkgGoDev (req : http.Request) : bool :=
  if strings.HasPrefix (url.Host (http.URL req)) "api" then false
  else
    let redirectParam := http.FormValue req pkgGoDevRedirectParam in
    if String.eqb redirectParam pkgGoDevRedirectOn
       || String.eqb redirectParam pkgGoDevRedirectOff
    then String.eqb redirectParam pkgGoDevRedirectOn
    else
      match http.Cookie_ req pkgGoDevRedirectCookie with
      | Some cookie => String.eqb (http.Value cookie) pkgGoDevRedirectOn
      | None => false
      end.

Record gddoEvent : Type := mkGddoEvent {
  Host : string;
  Path : string;
  Status : Z;
  URL : string;
  Header : http.Header;
  Latency : Z;
  IsRobot : bool;
  UsePkgGoDev : bool
}.

Definition newGDDOEvent (r : http.Request) (latency : Z) (isRobot : bool)
    (status : Z) : gddoEvent :=
  let targetURL :=
    url.mkURL "https" (url.Host (http.URL r)) (url.Path (http.URL r))
              (url.RawQuery (http.URL r)) in
  let targetURL :=
    if String.eqb (url.Host targetURL) "" && url.nonEmpty (http.Host r)
    then url.setHost targetURL (http.Host r)
    else targetURL in
  {| Host := url.Host targetURL;
     Path := url.Path (http.URL r);
     Status := status;
     URL := url.String_ targetURL;
     Header := http.Header_ r;
     Latency := latency;
     IsRobot := isRobot;
     UsePkgGoDev := shouldRedirectToPkgGoDev r |}.

Definition pkgGoDevURL (godocURL : url.URL) : url.URL :=
  let u := url.mkURL "https" pkgGoDevHost "" "" in
  let q : url.Values := {[ "utm_source" := ["godoc"] ]} in
  if strings.Contains (url.Path godocURL) "/vendor/"
     || strings.HasSuffix (url.Path godocURL) "/vendor"
  then url.setRawQuery (url.setPath u "/") (url.Encode q)
  else
    let '(u, q) :=
      if String.eqb (url.Path godocURL) "/-/go" then
        (url.setPath u "/std", url.Add q "tab" "packages")
      else if String.eqb (url.Path godocURL) "/-/about" then
        (url.setPath u "/about", q)
      else if String.eqb (url.Path godocURL) "/" then
        let qparam := url.Get (url.Query godocURL) "q" in
        if url.nonEmpty qparam then
          (url.setPath u "/search", url.Set_ q "q" qparam)
        else (url.setPath u "/", q)
      else if String.eqb (url.Path godocURL) "/-/subrepo" then
        (url.setPath u "/search", url.Set_ q "q" "golang.org/x")
      else
        (url.setPath u (url.Path godocURL),
         if url.has (url.Query godocURL) "imports" then
           url.Set_ q "tab" "imports"
         else if url.has (url.Query godocURL) "importers" then
           url.Set_ q "tab" "importedby"
         else url.Set_ q "tab" "doc")
    in
    url.setRawQuery u (url.Encode q).

(** [pkgGoDevRedirectHandler] redirects requests from godoc.org to
    pkg.go.dev, based on whether a cookie is set for pkggodev-redirect.
    The cookie can be turned on/off using a query param. *)
Definition pkgGoDevRedirectHandler (f : handler) : handler :=
  λ w r,
    if userReturningFromPkgGoDev r then f w r
    else
      let redirectParam := http.FormValue r pkgGoDevRedirectParam in
      let w :=
        if String.eqb redirectParam pkgGoDevRedirectOn then
          http.SetCookie w
            (http.mkCookie pkgGoDevRedirectCookie redirectParam "/" ""
                           None 0 false false)
        else w in
      let w :=
        if String.eqb redirectParam pkgGoDevRedirectOff then
          http.SetCookie w
            (http.mkCookie pkgGoDevRedirectCookie "" "/" ""
                           None (-1) false false)
        else w in
      if negb (shouldRedirectToPkgGoDev r) then f w r
      else
        (http.Redirect w r (url.String_ (pkgGoDevURL (http.URL r)))
                       http.StatusFound,
         None).

(** The tab that the default branch of [pkgGoDevURL] selects, named for
    the statements below: [imports] is looked up before [importers]. *)
Definition tabOf (godocURL : url.URL) : string :=
  if url.has (url.Query godocURL) "imports" then "imports"
  else if url.has (url.Query godocURL) "importers" then "importedby"
  else "doc".

(** A string without path separator and without dot: a last path element
    that has no extension, or the text of an extension after its dot. *)
Definition plain (s : string) : bool :=
  forallb (λ c, negb (filepath.IsPathSeparator c) && negb (Ascii.eqb c "."))
          (list_ascii_of_string s).

(** The response [w] after one more [Set-Cookie] line, and the answer
    that redirects to the destination of [r] after the lines [cookies];
    the two cookies the handler writes.  Named for the statements on
    [pkgGoDevRedirectHandler]. *)
Definition addCookie (w : http.ResponseWriter) (cookie : http.Cookie)
    : http.ResponseWriter :=
  http.mkResponseWriter (http.SetCookies w ++ [cookie])%list (http.Redirected w).

Definition redirectAnswer (w : http.ResponseWriter)
    (cookies : list http.Cookie) (r : http.Request)
    : http.ResponseWriter * error :=
  (http.mkResponseWriter (http.SetCookies w ++ cookies)%list
     (Some (url.String_ (pkgGoDevURL (http.URL r)), 302%Z)),
   None).

Definition cookieOn : http.Cookie :=
  http.mkCookie "pkggodev-redirect" "on" "/" "" None 0 false false.

Definition cookieOff : http.Cookie :=
  http.mkCookie "pkggodev-redirect" "" "/" "" None (-1) false false.

(** A text that [escape] leaves as it is in the given mode: none of its
    bytes has to be escaped.  Named for the statements on the URLs that
    the program formats. *)
Definition unescaped (mode : url.encoding) (s : string) : bool :=
  forallb (λ c, negb (url.shouldEscape c mode)) (list_ascii_of_string s).

(** ** [makePkgGoDevRequest] *)

(** The message that [makePkgGoDevRequest] logs: the constant text, or
    the format of [fmt.Sprintf] with its arguments. *)
Inductive teeMessage : Type :=
| notTeeingRequest
| marshalFailed (event : gddoEvent) (err : string)
| postFailed (target contentType : string) (event : gddoEvent) (err : string)
| requestMade (target : string) (event : gddoEvent).

(** What [makePkgGoDevRequest] does to the outside: the calls of
    [http.Post] (URL, content type, body) and the deferred log line (the
    path and the message). *)
Record teeEffects : Type := mkTeeEffects {
  posts : list (string * string * string);
  logged : string * teeMessage
}.

Section Tee.

(** [jsonMIMEType] is a constant of package [main] that another file
    declares. *)
Variable jsonMIMEType : string.

(** [json.Marshal] on an event: the encoding, or the error. *)
Variable jsonMarshal : gddoEvent → string + string.

(** The error that [http.Post] returns for a URL, a content type and a
    body; [None] is [nil]. *)
Variable httpPost : string → string → string → error.

(** [makePkgGoDevRequest] makes a request to the teeproxy with data about
    the godoc.org request. *)
Definition makePkgGoDevRequest (r : http.Request) (latency : Z)
    (isRobot : bool) (status : Z) : teeEffects :=
  let path := url.Path (http.URL r) in
  if negb (shouldTeeRequest path) then
    mkTeeEffects [] (path, notTeeingRequest)
  else
    let event := newGDDOEvent r latency isRobot status in
    match jsonMarshal event with
    | inr err => mkTeeEffects [] (path, marshalFailed event err)
    | inl b =>
        let teeproxyURL := url.mkURL "https" teeproxyHost "" "" in
        match httpPost (url.String_ teeproxyURL) jsonMIMEType b with
        | Some err =>
            mkTeeEffects [(url.String_ teeproxyURL, jsonMIMEType, b)]
              (path,
               postFailed (url.String_ teeproxyURL) jsonMIMEType event err)
        | None =>
            mkTeeEffects [(url.String_ teeproxyURL, jsonMIMEType, b)]
              (path, requestMade (url.String_ teeproxyURL) event)
        end
    end.

End Tee.

(** ** Proof steps *)

(** Case analysis on the 256 values of a byte. *)
Ltac by_byte c := destruct c as [[] [] [] [] [] [] [] []].

(** An induction over the bytes of an escaped string: every byte of the
    input contributes one, or three, known bytes to the output. *)
Ltac escape_induction s :=
  unfold url.QueryEscape in *;
  let c := fresh "c" in
  let IH := fresh "IH" in
  induction s as [|c s IH]; simpl in *;
  [ try reflexivity
  | by_byte c; simpl; rewrite IH; reflexivity ].

(** * Properties *)

(** ** The string functions *)

Lemma HasPrefix_iff (s p : string) :
  strings.HasPrefix s p = true ↔ ∃ rest, s = p ++ rest.
Proof.
  unfold strings.HasPrefix. revert s.
  induction p as [|c p IH]; intros s.
  - destruct s; simpl; split; eauto.
  - destruct s as [|d s]; simpl.
    + split; [discriminate | intros [? ?]; discriminate].
    + destruct (ascii_dec c d) as [->|Hne].
      * rewrite IH. split; intros [rest Hr]; exists rest; simpl in *; congruence.
      * split; [discriminate | intros [? ?]; simpl in *; congruence].
Qed.

Lemma Contains_iff (s sub : string) :
  strings.Contains s sub = true ↔ ∃ a b, s = a ++ sub ++ b.
Proof.
  induction s as [|c s IH]; cbn [strings.Contains].
  - rewrite orb_false_r, HasPrefix_iff. split.
    + intros [rest Hr]. exists "", rest. done.
    + intros [a [b Hab]]. destruct a; [eauto | discriminate].
  - rewrite orb_true_iff, HasPrefix_iff, IH. split.
    + intros [[rest Hr] | [a [b Hab]]].
      * exists "", rest. done.
      * exists (String c a), b. simpl. congruence.
    + intros [a [b Hab]]. destruct a as [|d a]; simpl in Hab.
      * left. eauto.
      * right. exists a, b. congruence.
Qed.

Lemma append_assoc (a b c : string) : (a ++ b) ++ c = a ++ (b ++ c).
Proof. induction a as [|x a IH]; simpl; [done | by rewrite IH]. Qed.

Lemma length_append (a b : string) :
  String.length (a ++ b) = (String.length a + String.length b)%nat.
Proof. induction a as [|c a IH]; simpl; [done | by rewrite IH]. Qed.

Lemma substring_all (s : string) :
  String.substring 0 (String.length s) s = s.
Proof. induction s as [|c s IH]; simpl; [done | by rewrite IH]. Qed.

Lemma substring_append_r (a b : string) :
  String.substring (String.length a) (String.length b) (a ++ b) = b.
Proof. induction a as [|c a IH]; simpl; [apply substring_all | done]. Qed.

Lemma substring_split (s : string) (n : nat) :
  (n ≤ String.length s)%nat →
  s = String.substring 0 n s
      ++ String.substring n (String.length s - n) s.
Proof.
  revert n. induction s as [|c s IH]; intros [|n] Hn; simpl in *; try lia.
  - done.
  - by rewrite substring_all.
  - f_equal. apply IH. lia.
Qed.

Lemma HasSuffix_iff (s suffix : string) :
  strings.HasSuffix s suffix = true ↔ ∃ a, s = a ++ suffix.
Proof.
  unfold strings.HasSuffix. rewrite andb_true_iff, Nat.leb_le, String.eqb_eq.
  split.
  - intros [Hle Hsub].
    exists (String.substring 0 (String.length s - String.length suffix) s).
    pose proof (substring_split s (String.length s - String.length suffix))
      as Hsplit.
    replace (String.length s - (String.length s - String.length suffix))%nat
      with (String.length suffix) in Hsplit by lia.
    rewrite Hsub in Hsplit. apply Hsplit. lia.
  - intros [a ->]. rewrite length_append. split; [lia |].
    replace (String.length a + String.length suffix - String.length suffix)%nat
      with (String.length a) by lia.
    apply substring_append_r.
Qed.

(** ** [filepath.Ext] *)

Lemma get_append_r (a b : string) (k : nat) :
  String.get (String.length a + k) (a ++ b) = String.get k b.
Proof. induction a as [|c a IH]; simpl; [done | exact IH]. Qed.

Lemma get_lt (s : string) (k : nat) :
  (k < String.length s)%nat → is_Some (String.get k s).
Proof.
  revert k. induction s as [|c s IH]; intros k Hk; simpl in Hk; [lia |].
  destruct k as [|k]; simpl; [eauto |]. apply IH. lia.
Qed.

Lemma plain_get (s : string) (k : nat) (c : ascii) :
  plain s = true → String.get k s = Some c →
  filepath.IsPathSeparator c = false ∧ Ascii.eqb c "." = false.
Proof.
  unfold plain. revert k.
  induction s as [|d s IH]; intros k Hp Hg; [by destruct k |].
  cbn [list_ascii_of_string forallb] in Hp.
  apply andb_true_iff in Hp as [Hd Hs].
  destruct k as [|k]; simpl in Hg.
  - injection Hg as <-. apply andb_true_iff in Hd as [H1 H2].
    apply negb_true_iff in H1, H2. done.
  - by apply (IH k).
Qed.

Lemma Ext_from_plain (a b : string) (k : nat) :
  plain b = true → (k ≤ String.length b)%nat →
  filepath.Ext_from (a ++ b) (String.length a + k)
  = filepath.Ext_from (a ++ b) (String.length a).
Proof.
  intros Hp. induction k as [|k IH]; intros Hk.
  - by rewrite Nat.add_0_r.
  - rewrite Nat.add_succ_r. cbn [filepath.Ext_from].
    rewrite get_append_r.
    destruct (get_lt b k) as [c Hg]; [lia |]. rewrite Hg.
    destruct (plain_get b k c Hp Hg) as [-> ->]. apply IH. lia.
Qed.

(** [filepath.Ext] is the suffix from the last dot of the last element of
    the path: after a dot, an extension without dot and separator is
    returned with its dot. *)
Lemma Ext_dot (stem e : string) :
  plain e = true →
  filepath.Ext (stem ++ "." ++ e) = "." ++ e.
Proof.
  intros Hp. unfold filepath.Ext.
  replace (stem ++ "." ++ e) with ((stem ++ ".") ++ e)
    by apply append_assoc.
  rewrite length_append, Ext_from_plain by done.
  rewrite length_append. cbn [String.length]. rewrite Nat.add_1_r.
  cbn [filepath.Ext_from].
  rewrite append_assoc.
  pose proof (get_append_r stem ("." ++ e) 0) as Hg.
  rewrite Nat.add_0_r in Hg. rewrite Hg. cbn.
  rewrite length_append. cbn [String.length].
  replace (String.length stem + S (String.length e) - String.length stem)%nat
    with (String.length (String "." e)) by (cbn; lia).
  apply (substring_append_r stem (String "." e)).
Qed.

(** A last element without a dot has no extension. *)
Lemma Ext_no_dot (dir seg : string) :
  plain seg = true →
  filepath.Ext (dir ++ "/" ++ seg) = "" ∧ filepath.Ext seg = "".
Proof.
  intros Hp. unfold filepath.Ext. split.
  - replace (dir ++ "/" ++ seg) with ((dir ++ "/") ++ seg)
      by apply append_assoc.
    rewrite length_append, Ext_from_plain by done.
    rewrite length_append. cbn [String.length]. rewrite Nat.add_1_r.
    cbn [filepath.Ext_from].
    rewrite append_assoc.
    pose proof (get_append_r dir ("/" ++ seg) 0) as Hg.
    rewrite Nat.add_0_r in Hg. rewrite Hg. reflexivity.
  - pose proof (Ext_from_plain "" seg (String.length seg) Hp) as He.
    cbn in He. apply He. lia.
Qed.

(** ** The tee filter *)

Lemma lookupBool_insert (m : gmap string bool) (k e : string) :
  lookupBool (<[k := true]> m) e = true ↔ e = k ∨ lookupBool m e = true.
Proof.
  unfold lookupBool. destruct (decide (k = e)) as [->|Hne].
  - rewrite lookup_insert_eq. simpl. tauto.
  - rewrite lookup_insert_ne by done. intuition congruence.
Qed.

Lemma lookupBool_empty (e : string) : lookupBool ∅ e = false.
Proof. unfold lookupBool. by rewrite lookup_empty. Qed.

Lemma lookupBool_exts (e : string) :
  lookupBool doNotTeeExtsToPkgGoDev e = true ↔
  e = ".css" ∨ e = ".html" ∨ e = ".js" ∨ e = ".txt" ∨ e = ".xml".
Proof.
  unfold doNotTeeExtsToPkgGoDev.
  rewrite !lookupBool_insert, lookupBool_empty. intuition discriminate.
Qed.

Lemma lookupBool_urls (u : string) :
  lookupBool doNotTeeURLsToPkgGoDev u = true ↔
  u = "/-/bot" ∨ u = "/-/refresh".
Proof.
  unfold doNotTeeURLsToPkgGoDev.
  rewrite !lookupBool_insert, lookupBool_empty. intuition discriminate.
Qed.

(** C1. [shouldTeeRequest p] is false exactly when [p] begins with
    ["/_ah/"], or the extension of its final segment is one of [.css],
    [.html], [.js], [.txt], [.xml], or [p] is ["/-/bot"] or ["/-/refresh"];
    it is true for every other path, such as ["/github.com/foo/bar"]. *)
Theorem shouldTeeRequest_false_iff :
  (∀ p : string,
     shouldTeeRequest p = false ↔
       (∃ rest, p = "/_ah/" ++ rest)
       ∨ filepath.Ext p ∈ [".css"; ".html"; ".js"; ".txt"; ".xml"]
       ∨ p = "/-/bot" ∨ p = "/-/refresh")
  ∧ (∀ p : string,
       shouldTeeRequest p = true ↔
         ¬ ((∃ rest, p = "/_ah/" ++ rest)
            ∨ filepath.Ext p ∈ [".css"; ".html"; ".js"; ".txt"; ".xml"]
            ∨ p = "/-/bot" ∨ p = "/-/refresh"))
  ∧ shouldTeeRequest "/github.com/foo/bar" = true.
Proof.
  assert (Hfalse : ∀ p : string,
     shouldTeeRequest p = false ↔
       (∃ rest, p = "/_ah/" ++ rest)
       ∨ filepath.Ext p ∈ [".css"; ".html"; ".js"; ".txt"; ".xml"]
       ∨ p = "/-/bot" ∨ p = "/-/refresh").
  { intros p. unfold shouldTeeRequest.
    rewrite <- HasPrefix_iff.
    assert (Hext : filepath.Ext p ∈ [".css"; ".html"; ".js"; ".txt"; ".xml"]
                   ↔ lookupBool doNotTeeExtsToPkgGoDev (filepath.Ext p) = true).
    { rewrite lookupBool_exts, !elem_of_cons, elem_of_nil. tauto. }
    rewrite Hext, <- lookupBool_urls.
    destruct (strings.HasPrefix p "/_ah/"); [tauto |].
    destruct (lookupBool doNotTeeExtsToPkgGoDev (filepath.Ext p)); [tauto |].
    destruct (lookupBool doNotTeeURLsToPkgGoDev p); [tauto |].
    split; [discriminate | intros [?|[?|?]]; discriminate]. }
  split; [exact Hfalse |]. split; [| reflexivity].
  intros p. rewrite <- Hfalse. destruct (shouldTeeRequest p); split; congruence.
Qed.

(** The sample paths of the specification. *)
Example shouldTeeRequest_samples :
  shouldTeeRequest "/_ah/health" = false
  ∧ shouldTeeRequest "/-/refresh" = false
  ∧ shouldTeeRequest "/-/bot" = false
  ∧ shouldTeeRequest "/static/app.js" = false
  ∧ shouldTeeRequest "/static/app.js/readme" = true
  ∧ shouldTeeRequest "/-/refresh/" = true.
Proof. repeat split. Qed.

(** ** The redirect decision *)

(** Without a form body, [FormValue] is the first value of the parameter
    in the URL query. *)
Lemma FormValue_query (r : http.Request) (key : string) :
  http.PostForm r = http.noBody →
  http.FormValue r key = url.Get (url.Query (http.URL r)) key.
Proof.
  intros Hb. unfold http.FormValue, http.Form, url.Get. by rewrite Hb.
Qed.

(** With a URL-encoded body that has the parameter, [FormValue] is its
    first value in the body. *)
Lemma FormValue_urlencoded (r : http.Request) (body : url.Values)
    (key value : string) (more : list string) :
  http.PostForm r = http.urlencoded body →
  body !! key = Some (value :: more) →
  http.FormValue r key = value.
Proof.
  intros Hb Hk. unfold http.FormValue, http.Form. rewrite Hb.
  unfold url.index at 1. by rewrite Hk.
Qed.


(** The decision of [shouldRedirectToPkgGoDev] once the API check has
    passed: the override parameter if it is ["on"] or ["off"], the cookie
    otherwise. *)
Lemma shouldRedirect_not_api (r : http.Request) :
  strings.HasPrefix (url.Host (http.URL r)) "api" = false →
  shouldRedirectToPkgGoDev r =
    if String.eqb (http.FormValue r pkgGoDevRedirectParam) "on" then true
    else if String.eqb (http.FormValue r pkgGoDevRedirectParam) "off" then false
    else match http.Cookie_ r pkgGoDevRedirectCookie with
         | Some cookie => String.eqb (http.Value cookie) "on"
         | None => false
         end.
Proof.
  intros Hapi. unfold shouldRedirectToPkgGoDev. rewrite Hapi.
  unfold pkgGoDevRedirectOn, pkgGoDevRedirectOff.
  destruct (String.eqb_spec (http.FormValue r pkgGoDevRedirectParam) "on")
    as [->|Hon]; [done |].
  by destruct (String.eqb (http.FormValue r pkgGoDevRedirectParam) "off").
Qed.

(** C2, as the code has it.  The override is the value that
    [FormValue] yields for [redirect]: for a request without form body
    the first value of the parameter in the URL query, and the first value
    in a URL-encoded body that has one, before the query.  On a host
    that is not an API host, the override ["on"] gives [true] and ["off"]
    gives [false], whatever cookies the request carries; with any other
    override, or none, the result is [true] exactly when the first cookie
    named [pkggodev-redirect] has the value ["on"]. *)
Theorem shouldRedirect_param_precedes_cookie (r : http.Request) :
  strings.HasPrefix (url.Host (http.URL r)) "api" = false →
  (http.PostForm r = http.noBody →
   http.FormValue r pkgGoDevRedirectParam
   = url.Get (url.Query (http.URL r)) "redirect")
  ∧ (∀ body value more,
       http.PostForm r = http.urlencoded body →
       body !! "redirect" = Some (value :: more) →
       http.FormValue r pkgGoDevRedirectParam = value)
  ∧ (http.FormValue r pkgGoDevRedirectParam = "on" →
     ∀ cs, shouldRedirectToPkgGoDev (http.withCookies r cs) = true)
  ∧ (http.FormValue r pkgGoDevRedirectParam = "off" →
     ∀ cs, shouldRedirectToPkgGoDev (http.withCookies r cs) = false)
  ∧ (http.FormValue r pkgGoDevRedirectParam ≠ "on" →
     http.FormValue r pkgGoDevRedirectParam ≠ "off" →
     (shouldRedirectToPkgGoDev r = true ↔
        ∃ cookie, http.Cookie_ r "pkggodev-redirect" = Some cookie
                  ∧ http.Value cookie = "on")).
Proof.
  intros Hapi. split; [| split; [| split; [| split]]].
  - intros Hbody. by apply FormValue_query.
  - intros body value more Hbody Hk.
    by apply (FormValue_urlencoded r body "redirect" value more).
  - intros Hon cs. rewrite shouldRedirect_not_api by exact Hapi.
    change (http.FormValue (http.withCookies r cs) pkgGoDevRedirectParam)
      with (http.FormValue r pkgGoDevRedirectParam).
    by rewrite Hon.
  - intros Hoff cs. rewrite shouldRedirect_not_api by exact Hapi.
    change (http.FormValue (http.withCookies r cs) pkgGoDevRedirectParam)
      with (http.FormValue r pkgGoDevRedirectParam).
    by rewrite Hoff.
  - intros Hon Hoff. rewrite shouldRedirect_not_api by exact Hapi.
    apply String.eqb_neq in Hon, Hoff. rewrite Hon, Hoff.
    change pkgGoDevRedirectCookie with "pkggodev-redirect".
    destruct (http.Cookie_ r "pkggodev-redirect") as [cookie|].
    + rewrite String.eqb_eq. split.
      * intros Hv. by exists cookie.
      * intros [c [[= <-] Hv]]. exact Hv.
    + split; [discriminate | intros [c [[=] _]]].
Qed.

(** The theorem at a request whose query says [off] against a cookie that
    says [on], and at a request without override that the first consent
    cookie decides. *)
Lemma shouldRedirect_param_precedes_cookie_witness :
  let consent :=
    http.mkCookie "pkggodev-redirect" "on" "" "" None 0 false false in
  let session := http.mkCookie "session" "off" "" "" None 0 false false in
  let r := http.mkRequest (url.mkURL "" "godoc.org" "/net/http" "redirect=off")
             "godoc.org" ∅ http.noBody [consent] in
  let bare := http.mkRequest (url.mkURL "" "godoc.org" "/net/http" "x=on")
                 "godoc.org" ∅ http.noBody [session; consent] in
  (strings.HasPrefix (url.Host (http.URL r)) "api" = false
   ∧ url.Get (url.Query (http.URL r)) "redirect" = "off"
   ∧ shouldRedirectToPkgGoDev r = false)
  ∧ (strings.HasPrefix (url.Host (http.URL bare)) "api" = false
     ∧ http.FormValue bare pkgGoDevRedirectParam = ""
     ∧ http.Cookie_ bare "pkggodev-redirect" = Some consent
     ∧ shouldRedirectToPkgGoDev bare = true).
Proof.
  intros consent session r bare. split.
  - split; [reflexivity |]. split; [reflexivity |].
    destruct (shouldRedirect_param_precedes_cookie r eq_refl)
      as [Hquery [_ [_ [Hoff _]]]].
    refine (Hoff _ (http.Cookies r)).
    rewrite (Hquery eq_refl). reflexivity.
  - split; [reflexivity |]. split; [reflexivity |]. split; [reflexivity |].
    destruct (shouldRedirect_param_precedes_cookie bare eq_refl)
      as [_ [_ [_ [_ Hcookie]]]].
    apply Hcookie; [discriminate | discriminate |].
    exists consent. split; reflexivity.
Defined.

(** C2, as stated, fails: a POST to [/net/http?redirect=on] whose
    URL-encoded body says [redirect=off] has the query parameter ["on"],
    and is not redirected, because [FormValue] reads the body first. *)
Lemma shouldRedirect_query_param_counterexample :
  let r := http.mkRequest (url.mkURL "" "godoc.org" "/net/http" "redirect=on")
             "godoc.org" ∅
             (http.urlencoded {[ "redirect" := ["off"] ]})
             [http.mkCookie "pkggodev-redirect" "on" "" "" None 0 false false] in
  strings.HasPrefix (url.Host (http.URL r)) "api" = false
  ∧ url.Query (http.URL r) !! "redirect" = Some ["on"]
  ∧ http.FormValue r "redirect" = "off"
  ∧ shouldRedirectToPkgGoDev r = false.
Proof. intros r. repeat split. Qed.

(** C7. A request whose URL host begins with ["api"] is never redirected,
    whatever its override parameter and its cookies are. *)
Theorem shouldRedirect_api_host (r : http.Request) :
  strings.HasPrefix (url.Host (http.URL r)) "api" = true →
  shouldRedirectToPkgGoDev r = false.
Proof. intros Hapi. unfold shouldRedirectToPkgGoDev. by rewrite Hapi. Qed.

Lemma shouldRedirect_api_host_witness :
  let r := http.mkRequest (url.mkURL "" "api.godoc.org" "/search" "redirect=on")
             "api.godoc.org" ∅ http.noBody
             [http.mkCookie "pkggodev-redirect" "on" "" "" None 0 false false] in
  strings.HasPrefix (url.Host (http.URL r)) "api" = true
  ∧ shouldRedirectToPkgGoDev r = false.
Proof.
  intros r. split; [reflexivity |].
  apply (shouldRedirect_api_host r). reflexivity.
Defined.

(** ** Escaping and parsing query strings *)

Lemma QueryUnescape_QueryEscape (s : string) :
  url.QueryUnescape (url.QueryEscape s) = Some s.
Proof. escape_induction s. Qed.

Lemma Contains_QueryEscape_semicolon (s : string) :
  strings.Contains (url.QueryEscape s) ";" = false.
Proof. escape_induction s. Qed.

Lemma Contains_pair_semicolon (k v : string) :
  strings.Contains (url.QueryEscape k ++ "=" ++ url.QueryEscape v) ";" = false.
Proof.
  pose proof (Contains_QueryEscape_semicolon v) as Hv.
  escape_induction k. exact Hv.
Qed.

Lemma Cut_QueryEscape (k t : string) :
  strings.Cut (url.QueryEscape k ++ String "=" t) "="
  = (url.QueryEscape k, t, true).
Proof. escape_induction k. Qed.

Lemma pieces_QueryEscape (s : string) :
  strings.pieces "&" (url.QueryEscape s) = [url.QueryEscape s].
Proof. escape_induction s. Qed.

Lemma pieces_QueryEscape_more (s t : string) :
  strings.pieces "&" (url.QueryEscape s ++ String "&" t)
  = url.QueryEscape s :: strings.pieces "&" t.
Proof. escape_induction s. Qed.

Lemma pieces_pair (k v : string) :
  strings.pieces "&" (url.QueryEscape k ++ "=" ++ url.QueryEscape v)
  = [url.QueryEscape k ++ "=" ++ url.QueryEscape v].
Proof.
  pose proof (pieces_QueryEscape v) as Hv.
  escape_induction k. by rewrite Hv.
Qed.

Lemma pieces_pair_more (k v t : string) :
  strings.pieces "&" (url.QueryEscape k ++ "=" ++ url.QueryEscape v ++ "&" ++ t)
  = (url.QueryEscape k ++ "=" ++ url.QueryEscape v) :: strings.pieces "&" t.
Proof.
  pose proof (pieces_QueryEscape_more v t) as Hv.
  escape_induction k. by rewrite Hv.
Qed.

(** [parseQuery] reads back a pair written by [Values.Encode]. *)
Lemma parsePiece_pair (m : url.Values) (k v : string) :
  url.parsePiece m (url.QueryEscape k ++ "=" ++ url.QueryEscape v)
  = <[k := (url.index m k ++ [v])%list]> m.
Proof.
  unfold url.parsePiece.
  rewrite Contains_pair_semicolon.
  replace (String.eqb (url.QueryEscape k ++ "=" ++ url.QueryEscape v) "")
    with false by (by destruct (url.QueryEscape k)).
  change ("=" ++ url.QueryEscape v) with (String "=" (url.QueryEscape v)).
  by rewrite Cut_QueryEscape, !QueryUnescape_QueryEscape.
Qed.

Lemma Encode_q (x : string) :
  url.Encode (url.Set_ {[ "utm_source" := ["godoc"] ]} "q" x)
  = "q=" ++ url.QueryEscape x ++ "&utm_source=godoc".
Proof.
  unfold url.Encode.
  replace (merge_sort String.le
             (map_to_list (url.Set_ {["utm_source" := ["godoc"]]} "q" x)).*1)
    with ["q"; "utm_source"] by (vm_compute; reflexivity).
  reflexivity.
Qed.

Lemma ParseQuery_q (x : string) :
  url.ParseQuery ("q=" ++ url.QueryEscape x ++ "&utm_source=godoc")
  = url.Set_ {[ "utm_source" := ["godoc"] ]} "q" x.
Proof.
  unfold url.ParseQuery.
  change ("q=" ++ url.QueryEscape x ++ "&utm_source=godoc")
    with (url.QueryEscape "q" ++ "=" ++ url.QueryEscape x ++ "&"
          ++ (url.QueryEscape "utm_source" ++ "=" ++ url.QueryEscape "godoc")).
  rewrite pieces_pair_more, pieces_pair.
  cbn [foldl]. rewrite !parsePiece_pair.
  reflexivity.
Qed.

(** ** The destination mapping *)

Lemma pkgGoDevURL_vendor (godocURL : url.URL) :
  strings.Contains (url.Path godocURL) "/vendor/"
  || strings.HasSuffix (url.Path godocURL) "/vendor" = true →
  pkgGoDevURL godocURL = url.mkURL "https" "pkg.go.dev" "/" "utm_source=godoc".
Proof. intros Hv. unfold pkgGoDevURL. rewrite Hv. reflexivity. Qed.

Lemma pkgGoDevURL_root (godocURL : url.URL) :
  url.Path godocURL = "/" →
  pkgGoDevURL godocURL =
    if url.nonEmpty (url.Get (url.Query godocURL) "q") then
      url.mkURL "https" "pkg.go.dev" "/search"
        ("q=" ++ url.QueryEscape (url.Get (url.Query godocURL) "q")
         ++ "&utm_source=godoc")
    else url.mkURL "https" "pkg.go.dev" "/" "utm_source=godoc".
Proof.
  intros Hp. unfold pkgGoDevURL. rewrite Hp.
  cbn -[url.Encode url.Set_ url.Query url.Get url.nonEmpty].
  destruct (url.nonEmpty (url.Get (url.Query godocURL) "q")).
  - unfold url.setRawQuery, url.setPath. cbn [url.Scheme url.Host url.Path].
    by rewrite Encode_q.
  - reflexivity.
Qed.

Lemma pkgGoDevURL_default (godocURL : url.URL) :
  strings.Contains (url.Path godocURL) "/vendor/" = false →
  strings.HasSuffix (url.Path godocURL) "/vendor" = false →
  url.Path godocURL ≠ "/-/go" →
  url.Path godocURL ≠ "/-/about" →
  url.Path godocURL ≠ "/" →
  url.Path godocURL ≠ "/-/subrepo" →
  pkgGoDevURL godocURL =
    url.mkURL "https" "pkg.go.dev" (url.Path godocURL)
      ("tab=" ++ tabOf godocURL ++ "&utm_source=godoc").
Proof.
  intros Hc Hs H1 H2 H3 H4. unfold pkgGoDevURL, tabOf.
  rewrite Hc, Hs.
  apply String.eqb_neq in H1, H2, H3, H4. rewrite H1, H2, H3, H4.
  cbn [orb].
  destruct (url.has (url.Query godocURL) "imports"); [reflexivity |].
  destruct (url.has (url.Query godocURL) "importers"); reflexivity.
Qed.

(** C3. [pkgGoDevURL] is total: for every input it yields a URL with scheme
    ["https"] and host ["pkg.go.dev"] whose query string carries
    [utm_source=godoc], in every branch. *)
Theorem pkgGoDevURL_total (godocURL : url.URL) :
  ∃ u, pkgGoDevURL godocURL = u
       ∧ url.Scheme u = "https"
       ∧ url.Host u = "pkg.go.dev"
       ∧ url.Query u !! "utm_source" = Some ["godoc"]
       ∧ ∃ before, url.RawQuery u = before ++ "utm_source=godoc".
Proof.
  exists (pkgGoDevURL godocURL). split; [reflexivity |].
  destruct (strings.Contains (url.Path godocURL) "/vendor/"
            || strings.HasSuffix (url.Path godocURL) "/vendor") eqn:Hv.
  { rewrite pkgGoDevURL_vendor by exact Hv.
    repeat split. by exists "". }
  apply orb_false_iff in Hv as [Hc Hs].
  destruct (String.eqb_spec (url.Path godocURL) "/") as [Hroot|Hroot].
  { rewrite pkgGoDevURL_root by exact Hroot.
    destruct (url.nonEmpty (url.Get (url.Query godocURL) "q")).
    - repeat split.
      + unfold url.Query. cbn [url.RawQuery]. by rewrite ParseQuery_q.
      + cbn [url.RawQuery].
        exists ("q=" ++ url.QueryEscape (url.Get (url.Query godocURL) "q")
                ++ "&").
        by rewrite !append_assoc.
    - repeat split. by exists "". }
  destruct (String.eqb_spec (url.Path godocURL) "/-/go") as [Hgo|Hgo].
  { unfold pkgGoDevURL. rewrite Hc, Hs, Hgo.
    repeat split. by exists "tab=packages&". }
  destruct (String.eqb_spec (url.Path godocURL) "/-/about") as [Hab|Hab].
  { unfold pkgGoDevURL. rewrite Hc, Hs, Hab.
    repeat split. by exists "". }
  destruct (String.eqb_spec (url.Path godocURL) "/-/subrepo") as [Hsub|Hsub].
  { unfold pkgGoDevURL. rewrite Hc, Hs, Hsub.
    repeat split. by exists "q=golang.org%2Fx&". }
  rewrite pkgGoDevURL_default by done.
  unfold tabOf.
  destruct (url.has (url.Query godocURL) "imports");
    [| destruct (url.has (url.Query godocURL) "importers")];
    repeat split.
  - by exists "tab=imports&".
  - by exists "tab=importedby&".
  - by exists "tab=doc&".
Qed.

(** C4. The mapping of the concrete legacy URLs: [/-/go], [/-/about],
    [/?q=json], the vendored paths, and [/some/pkg] with an [imports]
    parameter, with an [importers] parameter, and without a query. *)
Theorem pkgGoDevURL_concrete_mappings :
  (∀ scheme host query,
     pkgGoDevURL (url.mkURL scheme host "/-/go" query)
     = url.mkURL "https" "pkg.go.dev" "/std" "tab=packages&utm_source=godoc")
  ∧ (∀ scheme host query,
       pkgGoDevURL (url.mkURL scheme host "/-/about" query)
       = url.mkURL "https" "pkg.go.dev" "/about" "utm_source=godoc")
  ∧ (∀ scheme host,
       pkgGoDevURL (url.mkURL scheme host "/" "q=json")
       = url.mkURL "https" "pkg.go.dev" "/search" "q=json&utm_source=godoc")
  ∧ (∀ godocURL,
       (∃ a b, url.Path godocURL = a ++ "/vendor/" ++ b)
       ∨ (∃ a, url.Path godocURL = a ++ "/vendor") →
       pkgGoDevURL godocURL
       = url.mkURL "https" "pkg.go.dev" "/" "utm_source=godoc")
  ∧ (∀ scheme host query,
       pkgGoDevURL (url.mkURL scheme host "/some/pkg/vendor/x" query)
       = url.mkURL "https" "pkg.go.dev" "/" "utm_source=godoc")
  ∧ (∀ scheme host,
       pkgGoDevURL (url.mkURL scheme host "/some/pkg" "imports")
       = url.mkURL "https" "pkg.go.dev" "/some/pkg"
           "tab=imports&utm_source=godoc")
  ∧ (∀ scheme host,
       pkgGoDevURL (url.mkURL scheme host "/some/pkg" "importers")
       = url.mkURL "https" "pkg.go.dev" "/some/pkg"
           "tab=importedby&utm_source=godoc")
  ∧ (∀ scheme host,
       pkgGoDevURL (url.mkURL scheme host "/some/pkg" "")
       = url.mkURL "https" "pkg.go.dev" "/some/pkg" "tab=doc&utm_source=godoc").
Proof.
  repeat split; try reflexivity.
  intros godocURL Hv. apply pkgGoDevURL_vendor.
  rewrite orb_true_iff, Contains_iff, HasSuffix_iff. exact Hv.
Qed.

Lemma pkgGoDevURL_concrete_mappings_witness :
  let godocURL := url.mkURL "https" "godoc.org" "/some/pkg/vendor/x" "imports" in
  ((∃ a b, url.Path godocURL = a ++ "/vendor/" ++ b)
   ∨ (∃ a, url.Path godocURL = a ++ "/vendor"))
  ∧ pkgGoDevURL godocURL
    = url.mkURL "https" "pkg.go.dev" "/" "utm_source=godoc".
Proof.
  intros godocURL.
  assert (Hv : (∃ a b, url.Path godocURL = a ++ "/vendor/" ++ b)
               ∨ (∃ a, url.Path godocURL = a ++ "/vendor")).
  { left. exists "/some/pkg", "x". reflexivity. }
  split; [exact Hv |].
  exact (proj1 (proj2 (proj2 (proj2 pkgGoDevURL_concrete_mappings)))
           godocURL Hv).
Defined.

(** C9. In the default branch the destination keeps the path and its
    query string has exactly two parameters, [utm_source=godoc] and one
    [tab]; every legacy parameter is dropped, and [imports] wins over
    [importers]. *)
Theorem pkgGoDevURL_default_query (godocURL : url.URL) :
  strings.Contains (url.Path godocURL) "/vendor/" = false →
  strings.HasSuffix (url.Path godocURL) "/vendor" = false →
  url.Path godocURL ≠ "/-/go" →
  url.Path godocURL ≠ "/-/about" →
  url.Path godocURL ≠ "/" →
  url.Path godocURL ≠ "/-/subrepo" →
  ∃ tab,
    url.Path (pkgGoDevURL godocURL) = url.Path godocURL
    ∧ url.RawQuery (pkgGoDevURL godocURL) = "tab=" ++ tab ++ "&utm_source=godoc"
    ∧ url.Query (pkgGoDevURL godocURL)
      = {[ "tab" := [tab]; "utm_source" := ["godoc"] ]}
    ∧ (is_Some (url.Query godocURL !! "imports") → tab = "imports")
    ∧ (url.Query godocURL !! "imports" = None →
       is_Some (url.Query godocURL !! "importers") → tab = "importedby")
    ∧ (url.Query godocURL !! "imports" = None →
       url.Query godocURL !! "importers" = None → tab = "doc").
Proof.
  intros Hc Hs H1 H2 H3 H4. exists (tabOf godocURL).
  rewrite pkgGoDevURL_default by done.
  unfold tabOf, url.has.
  destruct (url.Query godocURL !! "imports") as [vs|] eqn:Himports.
  { rewrite bool_decide_eq_true_2 by eauto.
    repeat split; done. }
  rewrite bool_decide_eq_false_2 by (intros [? ?]; done).
  destruct (url.Query godocURL !! "importers") as [vs|] eqn:Himporters.
  { rewrite bool_decide_eq_true_2 by eauto.
    repeat split; done. }
  rewrite bool_decide_eq_false_2 by (intros [? ?]; done).
  repeat split; done.
Qed.

Lemma pkgGoDevURL_default_query_witness :
  let godocURL :=
    url.mkURL "https" "godoc.org" "/some/pkg" "importers&x=1&imports" in
  url.Query godocURL !! "importers" = Some [""]
  ∧ ∃ tab,
      url.Path (pkgGoDevURL godocURL) = url.Path godocURL
      ∧ url.RawQuery (pkgGoDevURL godocURL)
        = "tab=" ++ tab ++ "&utm_source=godoc"
      ∧ url.Query (pkgGoDevURL godocURL)
        = {[ "tab" := [tab]; "utm_source" := ["godoc"] ]}
      ∧ tab = "imports".
Proof.
  intros godocURL. split; [reflexivity |].
  destruct (pkgGoDevURL_default_query godocURL)
    as [tab [Hp [Hq [Hv [Hi _]]]]];
    [reflexivity | reflexivity | discriminate | discriminate | discriminate
    | discriminate |].
  exists tab.
  exact (conj Hp (conj Hq (conj Hv (Hi (ex_intro _ [""] eq_refl))))).
Defined.

(** ** The redirect handler *)

Section Handler.

Variable f : handler.
Variable w : http.ResponseWriter.

(** Past the bypass check, a request that [shouldRedirectToPkgGoDev]
    accepts is answered with a redirect to its destination; the wrapped
    handler is not called. *)
Lemma pkgGoDevRedirectHandler_redirects (r : http.Request) :
  userReturningFromPkgGoDev r = false →
  shouldRedirectToPkgGoDev r = true →
  snd (pkgGoDevRedirectHandler f w r) = None
  ∧ http.Redirected (fst (pkgGoDevRedirectHandler f w r))
    = Some (url.String_ (pkgGoDevURL (http.URL r)), 302%Z).
Proof.
  intros Hret Hred. unfold pkgGoDevRedirectHandler. rewrite Hret, Hred.
  split; reflexivity.
Qed.

(** C5, as the code has it.  The bypass is taken when the [utm_source]
    parameter has the value ["backtogodoc"]: the request then goes to the
    wrapped handler with nothing written before.  With any other value the
    handler goes on, and redirects a request that [shouldRedirectToPkgGoDev]
    accepts. *)
Theorem handler_bypass_on_marker_value (r : http.Request) :
  (http.FormValue r "utm_source" = "backtogodoc" →
   pkgGoDevRedirectHandler f w r = f w r)
  ∧ (http.FormValue r "utm_source" ≠ "backtogodoc" →
     shouldRedirectToPkgGoDev r = true →
     snd (pkgGoDevRedirectHandler f w r) = None
     ∧ http.Redirected (fst (pkgGoDevRedirectHandler f w r))
       = Some (url.String_ (pkgGoDevURL (http.URL r)), 302%Z)).
Proof.
  split.
  - intros Hm. unfold pkgGoDevRedirectHandler, userReturningFromPkgGoDev.
    by rewrite Hm.
  - intros Hm Hred. apply pkgGoDevRedirectHandler_redirects; [| exact Hred].
    unfold userReturningFromPkgGoDev. by apply String.eqb_neq.
Qed.


End Handler.

Lemma handler_bypass_on_marker_value_witness :
  let r := http.mkRequest
             (url.mkURL "" "godoc.org" "/some/pkg"
                        "utm_source=backtogodoc&redirect=on")
             "godoc.org" ∅ http.noBody
             [http.mkCookie "pkggodev-redirect" "on" "" "" None 0 false false] in
  let f : handler := λ w _, (w, Some "wrapped") in
  let w := http.mkResponseWriter [] None in
  http.FormValue r "utm_source" = "backtogodoc"
  ∧ pkgGoDevRedirectHandler f w r = (w, Some "wrapped").
Proof.
  intros r f w. split; [reflexivity |].
  exact (proj1 (handler_bypass_on_marker_value f w r) eq_refl).
Defined.

(** C5, as stated, fails: the request [/some/pkg?utm_source=twitter] with
    the consent cookie carries the parameter, and is redirected; the
    wrapped handler is not called. *)
Lemma handler_bypass_on_presence_counterexample :
  let r := http.mkRequest
             (url.mkURL "" "godoc.org" "/some/pkg" "utm_source=twitter")
             "godoc.org" ∅ http.noBody
             [http.mkCookie "pkggodev-redirect" "on" "" "" None 0 false false] in
  let f : handler := λ w _, (w, Some "wrapped") in
  let w := http.mkResponseWriter [] None in
  url.Query (http.URL r) !! "utm_source" = Some ["twitter"]
  ∧ pkgGoDevRedirectHandler f w r
    = (http.mkResponseWriter []
         (Some ("https://pkg.go.dev/some/pkg?tab=doc&utm_source=godoc", 302%Z)),
       None)
  ∧ pkgGoDevRedirectHandler f w r ≠ f w r.
Proof.
  intros r f w. split; [| split]; [reflexivity | reflexivity | discriminate].
Qed.


(** The other half of the round trip: [redirect=off] with the cookie still
    on the request deletes it, the wrapped handler answers, and the next
    request, without cookie, is not redirected. *)
Example consent_round_trip_off :
  let stale :=
    http.mkCookie "pkggodev-redirect" "on" "" "" None 0 false false in
  let r := http.mkRequest (url.mkURL "" "godoc.org" "/net/http" "redirect=off")
             "godoc.org" ∅ http.noBody [stale] in
  let next := http.mkRequest (url.mkURL "" "godoc.org" "/net/url" "")
                "godoc.org" ∅ http.noBody [] in
  let f : handler := λ w _, (w, None) in
  pkgGoDevRedirectHandler f (http.mkResponseWriter [] None) r
  = (http.mkResponseWriter
       [http.mkCookie "pkggodev-redirect" "" "/" "" None (-1) false false]
       None,
     None)
  ∧ shouldRedirectToPkgGoDev next = false.
Proof. intros stale r next f. split; reflexivity. Qed.

(** ** The analytics event *)

(** The host and the URL of the event: the host of the parsed URL, or the
    transport-level host when the parsed URL has none. *)
Lemma newGDDOEvent_target (r : http.Request) (latency : Z) (isRobot : bool)
    (status : Z) :
  let host := if String.eqb (url.Host (http.URL r)) ""
              then http.Host r else url.Host (http.URL r) in
  URL (newGDDOEvent r latency isRobot status)
  = url.String_ (url.mkURL "https" host (url.Path (http.URL r))
                           (url.RawQuery (http.URL r)))
  ∧ Host (newGDDOEvent r latency isRobot status) = host.
Proof.
  unfold newGDDOEvent. cbn [URL Host url.Host].
  destruct (String.eqb_spec (url.Host (http.URL r)) "") as [He|He].
  - rewrite He. unfold url.nonEmpty.
    destruct (String.eqb_spec (http.Host r) "") as [Hh|Hh].
    + rewrite Hh. split; reflexivity.
    + split; reflexivity.
  - split; reflexivity.
Qed.

(** C8. The event's URL is the [https] URL of the request's path and
    query on the host of the parsed URL, or on the transport-level host
    when the parsed URL has none; the event's flag is
    [shouldRedirectToPkgGoDev] of the same request, also for a request
    that the handler lets through because of the bypass marker. *)
Theorem newGDDOEvent_url_and_flag (r : http.Request) (latency : Z)
    (isRobot : bool) (status : Z) :
  let event := newGDDOEvent r latency isRobot status in
  let host := if String.eqb (url.Host (http.URL r)) ""
              then http.Host r else url.Host (http.URL r) in
  let target := url.mkURL "https" host (url.Path (http.URL r))
                          (url.RawQuery (http.URL r)) in
  Host event = host
  ∧ URL event = url.String_ target
  ∧ url.Scheme target = "https"
  ∧ (∃ rest, URL event = "https:" ++ rest)
  ∧ (host ≠ "" →
     ∃ rest, URL event = "https://" ++ url.escape host url.encodeHost ++ rest)
  ∧ UsePkgGoDev event = shouldRedirectToPkgGoDev r
  ∧ (∀ (f : handler) (w : http.ResponseWriter),
       userReturningFromPkgGoDev r = true →
       pkgGoDevRedirectHandler f w r = f w r
       ∧ UsePkgGoDev event = shouldRedirectToPkgGoDev r).
Proof.
  intros event host target.
  pose proof (newGDDOEvent_target r latency isRobot status) as Htarget.
  fold host target event in Htarget.
  destruct Htarget as [Hurl Hhost].
  split; [exact Hhost |]. split; [exact Hurl |]. split; [reflexivity |].
  split; [| split; [| split]].
  - rewrite Hurl. unfold url.String_, target. cbn [url.Scheme url.nonEmpty].
    cbn [String.eqb negb]. eexists. reflexivity.
  - intros Hne. rewrite Hurl. unfold url.String_, target.
    cbn [url.Scheme url.Host url.nonEmpty String.eqb negb orb].
    apply String.eqb_neq in Hne. unfold url.nonEmpty. rewrite Hne.
    cbn [negb orb]. eexists.
    rewrite !append_assoc. reflexivity.
  - reflexivity.
  - intros f w Hret. split; [| reflexivity].
    unfold pkgGoDevRedirectHandler. by rewrite Hret.
Qed.

(** A request with the bypass marker and the consent cookie: the handler
    lets it through, and the event still records that the visitor would be
    redirected. *)
Example newGDDOEvent_records_intent :
  let r := http.mkRequest
             (url.mkURL "" "" "/net/http" "utm_source=backtogodoc")
             "godoc.org" ∅ http.noBody
             [http.mkCookie "pkggodev-redirect" "on" "" "" None 0 false false] in
  let f : handler := λ w _, (w, Some "wrapped") in
  let w := http.mkResponseWriter [] None in
  pkgGoDevRedirectHandler f w r = (w, Some "wrapped")
  ∧ newGDDOEvent r 12 false 200
    = mkGddoEvent "godoc.org" "/net/http" 200
        "https://godoc.org/net/http?utm_source=backtogodoc" ∅ 12 false true.
Proof. intros r f w. split; reflexivity. Qed.

(** C10. [shouldRedirectToPkgGoDev] does not read the transport-level
    host: changing it leaves the result unchanged, and a request whose
    parsed URL has no host is decided by the override parameter and the
    cookie even when its transport-level host begins with ["api"]; the
    event of [newGDDOEvent] does take its host from there. *)
Theorem shouldRedirect_ignores_transport_host :
  (∀ r1 r2 : http.Request,
     http.URL r1 = http.URL r2 →
     http.Header_ r1 = http.Header_ r2 →
     http.PostForm r1 = http.PostForm r2 →
     http.Cookies r1 = http.Cookies r2 →
     shouldRedirectToPkgGoDev r1 = shouldRedirectToPkgGoDev r2)
  ∧ (∀ r : http.Request,
       url.Host (http.URL r) = "" →
       shouldRedirectToPkgGoDev r =
         if String.eqb (http.FormValue r "redirect") "on" then true
         else if String.eqb (http.FormValue r "redirect") "off" then false
         else match http.Cookie_ r "pkggodev-redirect" with
              | Some cookie => String.eqb (http.Value cookie) "on"
              | None => false
              end)
  ∧ (∀ (r : http.Request) (latency : Z) (isRobot : bool) (status : Z),
       url.Host (http.URL r) = "" →
       Host (newGDDOEvent r latency isRobot status) = http.Host r)
  ∧ (let r := http.mkRequest (url.mkURL "" "" "/search" "redirect=on")
                "api.godoc.org" ∅ http.noBody [] in
     strings.HasPrefix (http.Host r) "api" = true
     ∧ shouldRedirectToPkgGoDev r = true
     ∧ Host (newGDDOEvent r 0 false 200) = "api.godoc.org").
Proof.
  split; [| split; [| split]].
  - intros [u1 h1 hd1 pf1 cs1] [u2 h2 hd2 pf2 cs2]. cbn.
    intros -> -> -> ->. reflexivity.
  - intros r He. apply shouldRedirect_not_api. by rewrite He.
  - intros r latency isRobot status He.
    pose proof (newGDDOEvent_target r latency isRobot status) as [_ Hh].
    by rewrite He in Hh.
  - repeat split.
Qed.

Lemma shouldRedirect_ignores_transport_host_witness :
  let cookie :=
    http.mkCookie "pkggodev-redirect" "on" "" "" None 0 false false in
  let r1 := http.mkRequest (url.mkURL "" "" "/search" "")
              "api.godoc.org" ∅ http.noBody [cookie] in
  let r2 := http.mkRequest (url.mkURL "" "" "/search" "")
              "godoc.org" ∅ http.noBody [cookie] in
  url.Host (http.URL r1) = ""
  ∧ shouldRedirectToPkgGoDev r1 = shouldRedirectToPkgGoDev r2
  ∧ shouldRedirectToPkgGoDev r1 = true
  ∧ Host (newGDDOEvent r1 0 false 200) = "api.godoc.org".
Proof.
  intros cookie r1 r2. split; [reflexivity |].
  destruct shouldRedirect_ignores_transport_host as [Heq [Hd [Hh _]]].
  split; [| split].
  - exact (Heq r1 r2 eq_refl eq_refl eq_refl eq_refl).
  - rewrite (Hd r1 eq_refl). reflexivity.
  - exact (Hh r1 0%Z false 200%Z eq_refl).
Defined.

(** ** More on the destination mapping *)

Lemma lookup_two (a b k : string) (x y v : list string) :
  (<[a := x]> ({[ b := y ]} : gmap string (list string))) !! k = Some v →
  (k = a ∧ v = x) ∨ (k = b ∧ v = y).
Proof.
  rewrite lookup_insert. destruct (decide (a = k)) as [<-|Hne].
  - intros [= <-]. by left.
  - rewrite lookup_singleton. destruct (decide (b = k)) as [<-|Hne'].
    + intros [= <-]. by right.
    + discriminate.
Qed.

Lemma lookup_one (b k : string) (y v : list string) :
  ({[ b := y ]} : gmap string (list string)) !! k = Some v → k = b ∧ v = y.
Proof.
  rewrite lookup_singleton. destruct (decide (b = k)) as [<-|Hne].
  - by intros [= <-].
  - discriminate.
Qed.

(** The parsed query of the destination, branch by branch. *)
Lemma pkgGoDevURL_Query (godocURL : url.URL) :
  url.Query (pkgGoDevURL godocURL) = {[ "utm_source" := ["godoc"] ]}
  ∨ (∃ tab, tab ∈ ["packages"; "imports"; "importedby"; "doc"]
            ∧ url.Query (pkgGoDevURL godocURL)
              = {[ "tab" := [tab]; "utm_source" := ["godoc"] ]})
  ∨ (∃ term, (term = url.Get (url.Query godocURL) "q" ∨ term = "golang.org/x")
             ∧ url.Query (pkgGoDevURL godocURL)
               = {[ "q" := [term]; "utm_source" := ["godoc"] ]}).
Proof.
  destruct (strings.Contains (url.Path godocURL) "/vendor/"
            || strings.HasSuffix (url.Path godocURL) "/vendor") eqn:Hv.
  { rewrite pkgGoDevURL_vendor by exact Hv. by left. }
  apply orb_false_iff in Hv as [Hc Hs].
  destruct (String.eqb_spec (url.Path godocURL) "/") as [Hroot|Hroot].
  { rewrite pkgGoDevURL_root by exact Hroot.
    destruct (url.nonEmpty (url.Get (url.Query godocURL) "q")).
    - right. right. exists (url.Get (url.Query godocURL) "q").
      split; [by left |]. unfold url.Query at 1. cbn [url.RawQuery].
      apply ParseQuery_q.
    - by left. }
  destruct (String.eqb_spec (url.Path godocURL) "/-/go") as [Hgo|Hgo].
  { unfold pkgGoDevURL. rewrite Hc, Hs, Hgo.
    right. left. exists "packages". split; [set_solver | reflexivity]. }
  destruct (String.eqb_spec (url.Path godocURL) "/-/about") as [Hab|Hab].
  { unfold pkgGoDevURL. rewrite Hc, Hs, Hab. by left. }
  destruct (String.eqb_spec (url.Path godocURL) "/-/subrepo") as [Hsub|Hsub].
  { unfold pkgGoDevURL. rewrite Hc, Hs, Hsub.
    right. right. exists "golang.org/x". split; [by right | reflexivity]. }
  rewrite pkgGoDevURL_default by done.
  right. left. exists (tabOf godocURL). unfold tabOf.
  destruct (url.has (url.Query godocURL) "imports");
    [| destruct (url.has (url.Query godocURL) "importers")];
    (split; [set_solver | reflexivity]).
Qed.

(** X1. No legacy parameter reaches the destination: its query has the
    keys [utm_source], [tab] and [q] only, each with one value. *)
Theorem pkgGoDevURL_query_keys (godocURL : url.URL) (key : string)
    (values : list string) :
  url.Query (pkgGoDevURL godocURL) !! key = Some values →
  (key = "utm_source" ∧ values = ["godoc"])
  ∨ (key = "tab"
     ∧ ∃ tab, values = [tab]
              ∧ tab ∈ ["packages"; "imports"; "importedby"; "doc"])
  ∨ (key = "q"
     ∧ (values = [url.Get (url.Query godocURL) "q"]
        ∨ values = ["golang.org/x"])).
Proof.
  destruct (pkgGoDevURL_Query godocURL)
    as [-> | [[tab [Htab ->]] | [term [Hterm ->]]]].
  - intros [-> ->]%lookup_one. by left.
  - intros [[-> ->] | [-> ->]]%lookup_two.
    + right. left. split; [done |]. by exists tab.
    + by left.
  - intros [[-> ->] | [-> ->]]%lookup_two.
    + right. right. split; [done |]. destruct Hterm as [-> | ->]; tauto.
    + by left.
Qed.

Lemma pkgGoDevURL_query_keys_witness :
  let godocURL :=
    url.mkURL "https" "godoc.org" "/some/pkg" "debug=1&importers" in
  url.Query godocURL !! "debug" = Some ["1"]
  ∧ url.Query (pkgGoDevURL godocURL) !! "debug" = None
  ∧ url.Query (pkgGoDevURL godocURL) !! "tab" = Some ["importedby"]
  ∧ ∃ tab, ["importedby"] = [tab]
           ∧ tab ∈ ["packages"; "imports"; "importedby"; "doc"].
Proof.
  intros godocURL. split; [reflexivity |]. split; [reflexivity |].
  split; [reflexivity |].
  destruct (pkgGoDevURL_query_keys godocURL "tab" ["importedby"] eq_refl)
    as [[Hk _] | [[_ Htab] | [Hk _]]];
    [discriminate Hk | exact Htab | discriminate Hk].
Defined.

(** X2. The search term of the root page survives the redirect: it is
    escaped into the destination's query and parses back to itself,
    whatever bytes it holds. *)
Theorem pkgGoDevURL_search_round_trip (godocURL : url.URL) :
  url.Path godocURL = "/" →
  url.Get (url.Query godocURL) "q" ≠ "" →
  url.Path (pkgGoDevURL godocURL) = "/search"
  ∧ url.RawQuery (pkgGoDevURL godocURL)
    = "q=" ++ url.QueryEscape (url.Get (url.Query godocURL) "q")
      ++ "&utm_source=godoc"
  ∧ url.Get (url.Query (pkgGoDevURL godocURL)) "q"
    = url.Get (url.Query godocURL) "q"
  ∧ url.Query (pkgGoDevURL godocURL)
    = {[ "q" := [url.Get (url.Query godocURL) "q"];
         "utm_source" := ["godoc"] ]}.
Proof.
  intros Hroot Hq. rewrite pkgGoDevURL_root by exact Hroot.
  apply String.eqb_neq in Hq. unfold url.nonEmpty. rewrite Hq. cbn [negb].
  set (term := url.Get (url.Query godocURL) "q").
  assert (Hparsed :
    url.Query (url.mkURL "https" "pkg.go.dev" "/search"
                 ("q=" ++ url.QueryEscape term ++ "&utm_source=godoc"))
    = {[ "q" := [term]; "utm_source" := ["godoc"] ]}).
  { unfold url.Query. cbn [url.RawQuery]. apply ParseQuery_q. }
  rewrite Hparsed.
  split; [reflexivity |]. split; [reflexivity |]. split; [| reflexivity].
  unfold url.Get, url.index. by rewrite lookup_insert_eq.
Qed.

Lemma pkgGoDevURL_search_round_trip_witness :
  let godocURL := url.mkURL "" "godoc.org" "/" "x=1&q=a%2fb+c%26d&q=e" in
  (url.Path godocURL = "/" ∧ url.Get (url.Query godocURL) "q" = "a/b c&d")
  ∧ url.RawQuery (pkgGoDevURL godocURL) = "q=a%2Fb+c%26d&utm_source=godoc"
  ∧ url.Get (url.Query (pkgGoDevURL godocURL)) "q" = "a/b c&d".
Proof.
  intros godocURL. split; [split; reflexivity |].
  destruct (pkgGoDevURL_search_round_trip godocURL eq_refl)
    as [_ [Hraw [Hget _]]]; [discriminate |].
  split; [exact Hraw | exact Hget].
Defined.

(** X3. The root page without a search term, or with an empty first one,
    goes to the root of the new site with the attribution parameter
    alone; no other legacy parameter is kept. *)
Theorem pkgGoDevURL_root_without_term (godocURL : url.URL) :
  url.Path godocURL = "/" →
  url.Get (url.Query godocURL) "q" = "" →
  pkgGoDevURL godocURL = url.mkURL "https" "pkg.go.dev" "/" "utm_source=godoc".
Proof.
  intros Hroot Hq. rewrite pkgGoDevURL_root by exact Hroot. by rewrite Hq.
Qed.

Lemma pkgGoDevURL_root_without_term_witness :
  let godocURL := url.mkURL "" "godoc.org" "/" "q=&q=json&imports" in
  (url.Path godocURL = "/" ∧ url.Get (url.Query godocURL) "q" = "")
  ∧ pkgGoDevURL godocURL = url.mkURL "https" "pkg.go.dev" "/" "utm_source=godoc".
Proof.
  intros godocURL. split; [split; reflexivity |].
  exact (pkgGoDevURL_root_without_term godocURL eq_refl eq_refl).
Defined.

(** X4. The sub-repository page has one destination, whatever the legacy
    scheme, host and query are: a search for [golang.org/x], whose slash is
    escaped in the query string and parses back. *)
Theorem pkgGoDevURL_subrepo (godocURL : url.URL) :
  url.Path godocURL = "/-/subrepo" →
  pkgGoDevURL godocURL
  = url.mkURL "https" "pkg.go.dev" "/search" "q=golang.org%2Fx&utm_source=godoc"
  ∧ url.Query (pkgGoDevURL godocURL)
    = {[ "q" := ["golang.org/x"]; "utm_source" := ["godoc"] ]}.
Proof. unfold pkgGoDevURL. intros ->. split; reflexivity. Qed.

Lemma pkgGoDevURL_subrepo_witness :
  let godocURL := url.mkURL "http" "godoc.org" "/-/subrepo" "imports&q=x" in
  url.Path godocURL = "/-/subrepo"
  ∧ pkgGoDevURL godocURL
    = url.mkURL "https" "pkg.go.dev" "/search"
        "q=golang.org%2Fx&utm_source=godoc".
Proof.
  intros godocURL. split; [reflexivity |].
  exact (proj1 (pkgGoDevURL_subrepo godocURL eq_refl)).
Defined.

(** ** Path elements and the vendor rule *)

Lemma append_empty_r (s : string) : s ++ "" = s.
Proof. induction s as [|c s IH]; simpl; [done | by rewrite IH]. Qed.

Lemma pieces_nonempty (sep : ascii) (s : string) : strings.pieces sep s ≠ [].
Proof.
  destruct s as [|c s]; simpl; [done |].
  destruct (Ascii.eqb c sep); [done |].
  by destruct (strings.pieces sep s).
Qed.

(** Cutting a text with a separator in the middle: the pieces of both
    sides, one after the other. *)
Lemma pieces_app_sep (sep : ascii) (a b : string) :
  strings.pieces sep (a ++ String sep b)
  = (strings.pieces sep a ++ strings.pieces sep b)%list.
Proof.
  induction a as [|c a IH]; simpl.
  - by rewrite Ascii.eqb_refl.
  - destruct (Ascii.eqb c sep); [by rewrite IH |].
    rewrite IH. pose proof (pieces_nonempty sep a) as Hne.
    by destruct (strings.pieces sep a).
Qed.

(** The text is its first piece, or its first piece, the separator and a
    rest that has the other pieces. *)
Lemma pieces_head (sep : ascii) (s : string) :
  strings.pieces sep s = [s]
  ∨ ∃ first rest, s = first ++ String sep rest
                  ∧ strings.pieces sep s = first :: strings.pieces sep rest.
Proof.
  induction s as [|c s IH]; simpl; [by left |].
  destruct (Ascii.eqb_spec c sep) as [->|Hne].
  - right. by exists "", s.
  - destruct IH as [-> | [first [rest [-> ->]]]]; [by left |].
    right. by exists (String c first), rest.
Qed.

(** A piece of a text stands in it between separators or the ends of the
    text. *)
Lemma pieces_elem (sep : ascii) (x s : string) :
  x ∈ strings.pieces sep s →
  ∃ a b, s = a ++ x ++ b
         ∧ (a = "" ∨ ∃ a', a = a' ++ String sep "")
         ∧ (b = "" ∨ ∃ b', b = String sep b').
Proof.
  remember (String.length s) as n eqn:Hn. revert s Hn.
  induction n as [n IH] using lt_wf_ind. intros s -> Hx.
  destruct (pieces_head sep s) as [Hs | [first [rest [-> Hs]]]];
    rewrite Hs in Hx.
  - apply list_elem_of_singleton in Hx as ->. exists "", "".
    split; [| by split; left]. simpl. by rewrite append_empty_r.
  - apply elem_of_cons in Hx as [-> | Hx].
    + exists "", (String sep rest). split; [done |]. split; [by left |].
      right. by exists rest.
    + destruct (IH (String.length rest)) with (s := rest)
        as [a [b [-> [Ha Hb]]]]; [| done | done |].
      { rewrite length_append. simpl. lia. }
      exists (first ++ String sep a), b. split; [| split; [| exact Hb]].
      * by rewrite append_assoc.
      * right. destruct Ha as [-> | [a' ->]].
        -- by exists first.
        -- exists (first ++ String sep a'). by rewrite append_assoc.
Qed.

(** The test of the vendor rule, on the elements of the path. *)
Lemma vendor_test_iff (p : string) :
  strings.Contains p "/vendor/" || strings.HasSuffix p "/vendor" = true
  ↔ "vendor" ∈ tail (strings.pieces "/" p).
Proof.
  rewrite orb_true_iff, Contains_iff, HasSuffix_iff. split.
  - intros [[a [b ->]] | [a ->]].
    + change (a ++ "/vendor/" ++ b)
        with (a ++ String "/" ("vendor" ++ String "/" b)).
      rewrite !pieces_app_sep.
      pose proof (pieces_nonempty "/" a) as Hne.
      destruct (strings.pieces "/" a) as [|x l]; [done |].
      cbn. set_solver.
    + change (a ++ "/vendor") with (a ++ String "/" "vendor").
      rewrite pieces_app_sep.
      pose proof (pieces_nonempty "/" a) as Hne.
      destruct (strings.pieces "/" a) as [|x l]; [done |].
      cbn. set_solver.
  - intros Hin.
    destruct (pieces_head "/" p) as [Hp | [first [rest [-> Hp]]]];
      rewrite Hp in Hin; cbn [tail] in Hin.
    { by apply elem_of_nil in Hin. }
    apply pieces_elem in Hin as [a [b [-> [Ha Hb]]]].
    assert (Hpre : ∃ pre, first ++ String "/" (a ++ "vendor" ++ b)
                          = pre ++ "/vendor" ++ b).
    { destruct Ha as [-> | [a' ->]].
      - by exists first.
      - exists (first ++ String "/" a').
        rewrite !append_assoc. reflexivity. }
    destruct Hpre as [pre ->].
    destruct Hb as [-> | [b' ->]].
    + right. exists pre. reflexivity.
    + left. exists pre, b'. reflexivity.
Qed.

(** X5. A path is vendored exactly when one of its elements after the
    first is named [vendor]; such a path goes to the root of the new site
    with the attribution parameter alone. *)
Theorem pkgGoDevURL_vendor_element (godocURL : url.URL) :
  (strings.Contains (url.Path godocURL) "/vendor/"
   || strings.HasSuffix (url.Path godocURL) "/vendor" = true
   ↔ "vendor" ∈ tail (strings.pieces "/" (url.Path godocURL)))
  ∧ ("vendor" ∈ tail (strings.pieces "/" (url.Path godocURL)) →
     pkgGoDevURL godocURL
     = url.mkURL "https" "pkg.go.dev" "/" "utm_source=godoc").
Proof.
  split; [apply vendor_test_iff |].
  intros Hin. apply pkgGoDevURL_vendor. by apply vendor_test_iff.
Qed.

Lemma pkgGoDevURL_vendor_element_witness :
  let godocURL :=
    url.mkURL "" "godoc.org" "/github.com/a/b/vendor/c/d" "imports" in
  strings.pieces "/" (url.Path godocURL)
  = [""; "github.com"; "a"; "b"; "vendor"; "c"; "d"]
  ∧ pkgGoDevURL godocURL
    = url.mkURL "https" "pkg.go.dev" "/" "utm_source=godoc".
Proof.
  intros godocURL. split; [reflexivity |].
  apply (proj2 (pkgGoDevURL_vendor_element godocURL)).
  apply (proj1 (proj1 (pkgGoDevURL_vendor_element godocURL))). reflexivity.
Defined.

(** Paths that only resemble a vendored one take the default branch. *)
Example vendor_rule_edges :
  pkgGoDevURL (url.mkURL "" "" "/a/vendored" "")
  = url.mkURL "https" "pkg.go.dev" "/a/vendored" "tab=doc&utm_source=godoc"
  ∧ pkgGoDevURL (url.mkURL "" "" "vendor/x" "")
    = url.mkURL "https" "pkg.go.dev" "vendor/x" "tab=doc&utm_source=godoc"
  ∧ pkgGoDevURL (url.mkURL "" "" "/vendor" "")
    = url.mkURL "https" "pkg.go.dev" "/" "utm_source=godoc".
Proof. repeat split. Qed.

(** ** The location of the redirect *)

(** The raw query of the destination, branch by branch. *)
Lemma pkgGoDevURL_raw (godocURL : url.URL) :
  ∃ path raw,
    pkgGoDevURL godocURL = url.mkURL "https" "pkg.go.dev" path raw
    ∧ (raw = "utm_source=godoc"
       ∨ ∃ key value, (key = "q" ∨ key = "tab")
                      ∧ raw = key ++ "=" ++ url.QueryEscape value
                              ++ "&utm_source=godoc").
Proof.
  destruct (strings.Contains (url.Path godocURL) "/vendor/"
            || strings.HasSuffix (url.Path godocURL) "/vendor") eqn:Hv.
  { rewrite pkgGoDevURL_vendor by exact Hv. eexists _, _. split; [done |].
    by left. }
  apply orb_false_iff in Hv as [Hc Hs].
  destruct (String.eqb_spec (url.Path godocURL) "/") as [Hroot|Hroot].
  { rewrite pkgGoDevURL_root by exact Hroot.
    destruct (url.nonEmpty (url.Get (url.Query godocURL) "q")).
    - eexists _, _. split; [done |]. right.
      exists "q", (url.Get (url.Query godocURL) "q"). split; [by left | done].
    - eexists _, _. split; [done |]. by left. }
  destruct (String.eqb_spec (url.Path godocURL) "/-/go") as [Hgo|Hgo].
  { unfold pkgGoDevURL. rewrite Hc, Hs, Hgo.
    eexists _, _. split; [reflexivity |]. right.
    exists "tab", "packages". split; [by right | reflexivity]. }
  destruct (String.eqb_spec (url.Path godocURL) "/-/about") as [Hab|Hab].
  { unfold pkgGoDevURL. rewrite Hc, Hs, Hab.
    eexists _, _. split; [reflexivity |]. by left. }
  destruct (String.eqb_spec (url.Path godocURL) "/-/subrepo") as [Hsub|Hsub].
  { unfold pkgGoDevURL. rewrite Hc, Hs, Hsub.
    eexists _, _. split; [reflexivity |]. right.
    exists "q", "golang.org/x". split; [by left | reflexivity]. }
  rewrite pkgGoDevURL_default by done.
  eexists _, _. split; [reflexivity |]. right.
  exists "tab", (tabOf godocURL). split; [by right |]. unfold tabOf.
  destruct (url.has (url.Query godocURL) "imports");
    [| destruct (url.has (url.Query godocURL) "importers")]; reflexivity.
Qed.

Lemma Contains_QueryEscape_hash (s rest : string) :
  strings.Contains (url.QueryEscape s ++ rest) "#"
  = strings.Contains rest "#".
Proof. escape_induction s. Qed.

Lemma Contains_escape_path_question (p : string) :
  strings.Contains (url.escape p url.encodePath) "?" = false.
Proof. escape_induction p. Qed.

Lemma Contains_escape_path_hash (p : string) :
  strings.Contains (url.escape p url.encodePath) "#" = false.
Proof. escape_induction p. Qed.

Lemma Contains_cons (c : ascii) (s sub : string) :
  strings.Contains (String c s) sub
  = strings.HasPrefix (String c s) sub || strings.Contains s sub.
Proof. reflexivity. Qed.

(** Escaping a path keeps a leading slash and never makes one. *)
Lemma escape_path_head (c : ascii) (p : string) :
  ∃ d rest, url.escape (String c p) url.encodePath = String d rest
            ∧ Ascii.eqb d "/" = Ascii.eqb c "/".
Proof. by_byte c; simpl; eexists _, _; split; reflexivity. Qed.

(** The path part of [URL.String] on a URL with a host: empty for an
    empty path, and otherwise led by a slash; no [?] and no [#] in it. *)
Lemma String_path_part (scheme host path raw : string) :
  let u := url.mkURL scheme host path raw in
  let part :=
    (match url.EscapedPath u with
     | String c _ => if negb (Ascii.eqb c "/") && url.nonEmpty host
                     then "/" else ""
     | EmptyString => ""
     end) ++ url.EscapedPath u in
  host ≠ "" →
  ((path = "" ∧ part = "") ∨ ∃ rest, part = "/" ++ rest)
  ∧ strings.Contains part "?" = false
  ∧ strings.Contains part "#" = false.
Proof.
  intros u part Hhost. subst part u. unfold url.EscapedPath.
  cbn [url.Path]. apply String.eqb_neq in Hhost.
  unfold url.nonEmpty. rewrite Hhost. cbn [negb andb].
  destruct (String.eqb_spec path "*") as [->|Hstar].
  { split; [right; by exists "*" | split; reflexivity]. }
  destruct path as [|c p].
  { split; [by left | split; reflexivity]. }
  pose proof (Contains_escape_path_question (String c p)) as Hq.
  pose proof (Contains_escape_path_hash (String c p)) as Hh.
  destruct (escape_path_head c p) as [d [rest [He Hd]]].
  rewrite He in *. rewrite andb_true_r.
  destruct (Ascii.eqb_spec d "/") as [->|Hne]; cbn [negb].
  - split; [right; by exists rest |]. split; assumption.
  - split; [right; by exists (String d rest) |].
    change ("/" ++ String d rest) with (String "/" (String d rest)).
    rewrite !(Contains_cons "/"), Hq, Hh. split; reflexivity.
Qed.

(** [URL.String] on a URL with scheme [https], a host that needs no
    escaping and a query. *)
Lemma String_https (host path raw : string) :
  host ≠ "" → raw ≠ "" →
  url.escape host url.encodeHost = host →
  let u := url.mkURL "https" host path raw in
  url.String_ u
  = "https://" ++ host
    ++ ((match url.EscapedPath u with
         | String c _ => if negb (Ascii.eqb c "/") && url.nonEmpty host
                         then "/" else ""
         | EmptyString => ""
         end) ++ url.EscapedPath u)
    ++ "?" ++ raw.
Proof.
  intros Hhost Hraw Hesc u. subst u. unfold url.String_, url.nonEmpty.
  cbn [url.Scheme url.Host url.RawQuery].
  apply String.eqb_neq in Hhost, Hraw.
  rewrite Hhost, Hraw, Hesc.
  cbn [negb orb String.eqb Ascii.eqb].
  rewrite !append_assoc. reflexivity.
Qed.

(** X6. The location of a redirect is on [pkg.go.dev] whatever the legacy
    path is: after [https://pkg.go.dev] comes nothing or a slash-led path
    part without [?] and [#], then [?] and the destination's query, which
    has no [#]. *)
Theorem redirect_location_anatomy (godocURL : url.URL) :
  ∃ part,
    url.String_ (pkgGoDevURL godocURL)
    = "https://pkg.go.dev" ++ part ++ "?"
      ++ url.RawQuery (pkgGoDevURL godocURL)
    ∧ ((url.Path (pkgGoDevURL godocURL) = "" ∧ part = "")
       ∨ ∃ rest, part = "/" ++ rest)
    ∧ strings.Contains part "?" = false
    ∧ strings.Contains part "#" = false
    ∧ strings.Contains (url.RawQuery (pkgGoDevURL godocURL)) "#" = false.
Proof.
  destruct (pkgGoDevURL_raw godocURL) as [path [raw [-> Hraw]]].
  cbn [url.RawQuery url.Path].
  assert (Hne : raw ≠ "" ∧ strings.Contains raw "#" = false).
  { destruct Hraw as [-> | [key [value [[-> | ->] ->]]]].
    - split; [discriminate | reflexivity].
    - split; [discriminate |].
      change ("q" ++ "=" ++ url.QueryEscape value ++ "&utm_source=godoc")
        with (String "q" (String "="
                (url.QueryEscape value ++ "&utm_source=godoc"))).
      rewrite !Contains_cons, Contains_QueryEscape_hash. reflexivity.
    - split; [discriminate |].
      change ("tab" ++ "=" ++ url.QueryEscape value ++ "&utm_source=godoc")
        with (String "t" (String "a" (String "b" (String "="
                (url.QueryEscape value ++ "&utm_source=godoc"))))).
      rewrite !Contains_cons, Contains_QueryEscape_hash. reflexivity. }
  destruct Hne as [Hne Hhash].
  pose proof (String_https "pkg.go.dev" path raw) as Hs.
  pose proof (String_path_part "https" "pkg.go.dev" path raw) as Hp.
  cbn zeta in Hs, Hp.
  destruct Hp as [Hhead [Hq Hh]]; [discriminate |].
  eexists. split; [apply Hs; [discriminate | exact Hne | reflexivity] |].
  split; [exact Hhead |]. split; [exact Hq |]. split; [exact Hh | exact Hhash].
Qed.

(** ** The outcomes of the redirect handler *)

Section HandlerOutcomes.

Variable f : handler.
Variable w : http.ResponseWriter.

Lemma shouldRedirect_off (r : http.Request) :
  http.FormValue r "redirect" = "off" → shouldRedirectToPkgGoDev r = false.
Proof.
  intros Hoff. unfold shouldRedirectToPkgGoDev.
  change pkgGoDevRedirectParam with "redirect". rewrite Hoff.
  by destruct (strings.HasPrefix (url.Host (http.URL r)) "api").
Qed.

Lemma shouldRedirect_on (r : http.Request) :
  http.FormValue r "redirect" = "on" →
  shouldRedirectToPkgGoDev r
  = negb (strings.HasPrefix (url.Host (http.URL r)) "api").
Proof.
  intros Hon. unfold shouldRedirectToPkgGoDev.
  change pkgGoDevRedirectParam with "redirect". rewrite Hon.
  by destruct (strings.HasPrefix (url.Host (http.URL r)) "api").
Qed.

Lemma handler_off (r : http.Request) :
  userReturningFromPkgGoDev r = false →
  http.FormValue r "redirect" = "off" →
  pkgGoDevRedirectHandler f w r = f (addCookie w cookieOff) r.
Proof.
  intros Hret Hoff. unfold pkgGoDevRedirectHandler. rewrite Hret.
  change pkgGoDevRedirectParam with "redirect".
  rewrite (shouldRedirect_off r Hoff), Hoff. reflexivity.
Qed.

Lemma handler_on (r : http.Request) :
  userReturningFromPkgGoDev r = false →
  http.FormValue r "redirect" = "on" →
  pkgGoDevRedirectHandler f w r
  = if strings.HasPrefix (url.Host (http.URL r)) "api"
    then f (addCookie w cookieOn) r
    else redirectAnswer w [cookieOn] r.
Proof.
  intros Hret Hon. unfold pkgGoDevRedirectHandler. rewrite Hret.
  change pkgGoDevRedirectParam with "redirect".
  rewrite (shouldRedirect_on r Hon), Hon.
  by destruct (strings.HasPrefix (url.Host (http.URL r)) "api").
Qed.

Lemma handler_plain (r : http.Request) :
  userReturningFromPkgGoDev r = false →
  http.FormValue r "redirect" ≠ "on" →
  http.FormValue r "redirect" ≠ "off" →
  pkgGoDevRedirectHandler f w r
  = if shouldRedirectToPkgGoDev r then redirectAnswer w [] r else f w r.
Proof.
  intros Hret Hon Hoff. unfold pkgGoDevRedirectHandler. rewrite Hret.
  change pkgGoDevRedirectParam with "redirect".
  apply String.eqb_neq in Hon, Hoff.
  unfold pkgGoDevRedirectOn, pkgGoDevRedirectOff. rewrite Hon, Hoff.
  destruct (shouldRedirectToPkgGoDev r); [| reflexivity].
  unfold redirectAnswer. by rewrite app_nil_r.
Qed.

(** X7. Without the bypass marker the override parameter decides alone:
    [off] deletes the cookie and hands over to the wrapped handler on
    every host and with every cookie; [on] sets the cookie and redirects,
    except on an API host, where the cookie is set and the wrapped handler
    runs. *)
Theorem handler_override_decides (r : http.Request) :
  userReturningFromPkgGoDev r = false →
  (http.FormValue r "redirect" = "off" →
   pkgGoDevRedirectHandler f w r = f (addCookie w cookieOff) r)
  ∧ (http.FormValue r "redirect" = "on" →
     strings.HasPrefix (url.Host (http.URL r)) "api" = false →
     pkgGoDevRedirectHandler f w r = redirectAnswer w [cookieOn] r)
  ∧ (http.FormValue r "redirect" = "on" →
     strings.HasPrefix (url.Host (http.URL r)) "api" = true →
     pkgGoDevRedirectHandler f w r = f (addCookie w cookieOn) r).
Proof.
  intros Hret. split; [| split].
  - by apply handler_off.
  - intros Hon Hapi. by rewrite handler_on, Hapi.
  - intros Hon Hapi. by rewrite handler_on, Hapi.
Qed.

(** X8. Without bypass marker and without an override of value [on] or
    [off], the handler writes no cookie: it redirects with the response
    as it was, or calls the wrapped handler with it. *)
Theorem handler_without_override (r : http.Request) :
  userReturningFromPkgGoDev r = false →
  http.FormValue r "redirect" ≠ "on" →
  http.FormValue r "redirect" ≠ "off" →
  pkgGoDevRedirectHandler f w r
  = if shouldRedirectToPkgGoDev r
    then (http.mkResponseWriter (http.SetCookies w)
            (Some (url.String_ (pkgGoDevURL (http.URL r)), 302%Z)),
          None)
    else f w r.
Proof.
  intros Hret Hon Hoff. rewrite handler_plain by done.
  unfold redirectAnswer. by rewrite app_nil_r.
Qed.

(** X9. The handler has five outcomes.  It never writes more than one
    cookie, never deletes the cookie in a response that redirects, and
    a response that redirects carries no error. *)
Theorem handler_outcomes (r : http.Request) :
  pkgGoDevRedirectHandler f w r = f w r
  ∨ pkgGoDevRedirectHandler f w r = f (addCookie w cookieOn) r
  ∨ pkgGoDevRedirectHandler f w r = f (addCookie w cookieOff) r
  ∨ pkgGoDevRedirectHandler f w r = redirectAnswer w [] r
  ∨ pkgGoDevRedirectHandler f w r = redirectAnswer w [cookieOn] r.
Proof.
  destruct (userReturningFromPkgGoDev r) eqn:Hret.
  { left. unfold pkgGoDevRedirectHandler. by rewrite Hret. }
  destruct (String.eqb_spec (http.FormValue r "redirect") "off") as [Ho|Ho].
  { right. right. left. by apply handler_off. }
  destruct (String.eqb_spec (http.FormValue r "redirect") "on") as [Hn|Hn].
  { rewrite handler_on by done.
    destruct (strings.HasPrefix (url.Host (http.URL r)) "api").
    - right. by left.
    - by do 4 right. }
  rewrite handler_plain by done.
  destruct (shouldRedirectToPkgGoDev r).
  - do 3 right. by left.
  - by left.
Qed.

End HandlerOutcomes.

Lemma handler_override_decides_witness :
  let r := http.mkRequest (url.mkURL "" "api.godoc.org" "/search" "redirect=on")
             "api.godoc.org" ∅ http.noBody [] in
  let f : handler := λ w _, (w, Some "wrapped") in
  let w := http.mkResponseWriter [] None in
  (userReturningFromPkgGoDev r = false
   ∧ http.FormValue r "redirect" = "on"
   ∧ strings.HasPrefix (url.Host (http.URL r)) "api" = true)
  ∧ pkgGoDevRedirectHandler f w r
    = (http.mkResponseWriter [cookieOn] None, Some "wrapped").
Proof.
  intros r f w. split; [repeat split |].
  exact (proj2 (proj2 (handler_override_decides f w r eq_refl))
           eq_refl eq_refl).
Defined.

Lemma handler_without_override_witness :
  let r := http.mkRequest (url.mkURL "" "godoc.org" "/net/http" "redirect=ON")
             "godoc.org" ∅ http.noBody
             [http.mkCookie "other" "on" "" "" None 0 false false;
              http.mkCookie "pkggodev-redirect" "on" "" "" None 0 false false] in
  let f : handler := λ w _, (w, Some "wrapped") in
  let w := http.mkResponseWriter [] None in
  (userReturningFromPkgGoDev r = false
   ∧ http.FormValue r "redirect" = "ON")
  ∧ pkgGoDevRedirectHandler f w r
    = (http.mkResponseWriter []
         (Some ("https://pkg.go.dev/net/http?tab=doc&utm_source=godoc", 302%Z)),
       None).
Proof.
  intros r f w. split; [repeat split |].
  rewrite (handler_without_override f w r eq_refl); [reflexivity | |];
    discriminate.
Defined.

(** ** The tee filter and the last element of the path *)

Lemma Ext_dotted_nonempty (stem e : string) :
  plain e = true → filepath.Ext (stem ++ "." ++ e) ≠ "".
Proof. intros Hp. by rewrite Ext_dot. Qed.

(** X10. On a path whose last dot is followed by [e], a text without dot
    and slash, the filter looks at [e] alone: the path is teed exactly
    when it is not under [/_ah/] and [e] is none of [css], [html], [js],
    [txt], [xml], whatever stands before the dot. *)
Theorem shouldTeeRequest_dotted (stem e : string) :
  plain e = true →
  (shouldTeeRequest (stem ++ "." ++ e) = true
   ↔ ¬ (∃ rest, stem ++ "." ++ e = "/_ah/" ++ rest)
     ∧ e ∉ ["css"; "html"; "js"; "txt"; "xml"]).
Proof.
  intros Hp. unfold shouldTeeRequest. rewrite <- HasPrefix_iff.
  rewrite (Ext_dot stem e Hp).
  destruct (strings.HasPrefix (stem ++ "." ++ e) "/_ah/").
  { split; [discriminate | intros [Hn _]; by destruct Hn]. }
  assert (Hurls : lookupBool doNotTeeURLsToPkgGoDev (stem ++ "." ++ e) = false).
  { destruct (lookupBool doNotTeeURLsToPkgGoDev (stem ++ "." ++ e)) eqn:Hu;
      [| done].
    apply lookupBool_urls in Hu.
    pose proof (Ext_dotted_nonempty stem e Hp) as Hne.
    destruct Hu as [Hu | Hu]; rewrite Hu in Hne; by destruct Hne. }
  rewrite Hurls.
  destruct (lookupBool doNotTeeExtsToPkgGoDev ("." ++ e)) eqn:He.
  - apply lookupBool_exts in He. split; [discriminate |].
    intros [_ Hn]. destruct Hn.
    rewrite !elem_of_cons, elem_of_nil.
    destruct He as [He | [He | [He | [He | He]]]];
      injection He as ->; tauto.
  - split; [| done]. intros _. split; [discriminate |].
    rewrite !elem_of_cons, elem_of_nil.
    intros [-> | [-> | [-> | [-> | [-> | []]]]]]; discriminate.
Qed.

Lemma shouldTeeRequest_dotted_witness :
  (plain "v2" = true
   ∧ shouldTeeRequest ("/gopkg.in/yaml" ++ "." ++ "v2") = true)
  ∧ (plain "js" = true
     ∧ shouldTeeRequest ("/github.com/a/b.min" ++ "." ++ "js") = false).
Proof.
  split; (split; [reflexivity |]).
  - apply (proj2 (shouldTeeRequest_dotted "/gopkg.in/yaml" "v2" eq_refl)).
    split.
    + intros [rest Hr]. discriminate.
    + rewrite !elem_of_cons, elem_of_nil.
      intros [H | [H | [H | [H | [H | []]]]]]; discriminate.
  - destruct (shouldTeeRequest ("/github.com/a/b.min" ++ "." ++ "js")) eqn:Ht;
      [| reflexivity].
    apply (shouldTeeRequest_dotted "/github.com/a/b.min" "js" eq_refl) in Ht
      as [_ Hn].
    destruct Hn. rewrite !elem_of_cons. tauto.
Defined.

(** X11. A path whose last element has no dot is teed unless it is under
    [/_ah/] or is [/-/bot] or [/-/refresh]: dots in the directories
    before it, as in [/github.com/...], do not filter. *)
Theorem shouldTeeRequest_undotted (dir seg : string) :
  plain seg = true →
  (shouldTeeRequest (dir ++ "/" ++ seg) = true
   ↔ ¬ (∃ rest, dir ++ "/" ++ seg = "/_ah/" ++ rest)
     ∧ dir ++ "/" ++ seg ≠ "/-/bot"
     ∧ dir ++ "/" ++ seg ≠ "/-/refresh").
Proof.
  intros Hp. unfold shouldTeeRequest. rewrite <- HasPrefix_iff.
  rewrite (proj1 (Ext_no_dot dir seg Hp)).
  change (lookupBool doNotTeeExtsToPkgGoDev "") with false.
  destruct (strings.HasPrefix (dir ++ "/" ++ seg) "/_ah/").
  { split; [discriminate | intros [Hn _]; by destruct Hn]. }
  destruct (lookupBool doNotTeeURLsToPkgGoDev (dir ++ "/" ++ seg)) eqn:Hu.
  - apply lookupBool_urls in Hu. split; [discriminate |].
    intros [_ [H1 H2]]. tauto.
  - split; [| done]. intros _. split; [discriminate |].
    split; intros Heq; rewrite Heq in Hu; discriminate.
Qed.

Lemma shouldTeeRequest_undotted_witness :
  plain "bar" = true
  ∧ shouldTeeRequest ("/github.com/foo" ++ "/" ++ "bar") = true.
Proof.
  split; [reflexivity |].
  apply (proj2 (shouldTeeRequest_undotted "/github.com/foo" "bar" eq_refl)).
  split; [| split]; [intros [rest Hr] | intros H | intros H]; discriminate.
Defined.

(** ** More on the redirect decision *)

Lemma find_first (name : string) (before after : list http.Cookie)
    (cookie : http.Cookie) :
  Forall (λ c, http.Name c ≠ name) before →
  http.Name cookie = name →
  List.find (λ c, String.eqb (http.Name c) name)
            (before ++ cookie :: after)%list
  = Some cookie.
Proof.
  intros Hb Hc. induction Hb as [|c before Hne _ IH]; simpl.
  - by rewrite Hc, String.eqb_refl.
  - apply String.eqb_neq in Hne. by rewrite Hne.
Qed.

(** X12. Of the cookies of a request, the first one named
    [pkggodev-redirect] decides, by whether its value is exactly [on];
    cookies of other names before it and all cookies after it are
    ignored. *)
Theorem shouldRedirect_first_cookie (r : http.Request)
    (before after : list http.Cookie) (cookie : http.Cookie) :
  strings.HasPrefix (url.Host (http.URL r)) "api" = false →
  http.FormValue r "redirect" ≠ "on" →
  http.FormValue r "redirect" ≠ "off" →
  http.Cookies r = (before ++ cookie :: after)%list →
  Forall (λ c, http.Name c ≠ "pkggodev-redirect") before →
  http.Name cookie = "pkggodev-redirect" →
  shouldRedirectToPkgGoDev r = String.eqb (http.Value cookie) "on".
Proof.
  intros Hapi Hon Hoff Hcs Hb Hc.
  rewrite shouldRedirect_not_api by exact Hapi.
  change pkgGoDevRedirectParam with "redirect".
  apply String.eqb_neq in Hon, Hoff. rewrite Hon, Hoff.
  unfold http.Cookie_. change pkgGoDevRedirectCookie with "pkggodev-redirect".
  cbn [String.eqb Ascii.eqb]. rewrite Hcs.
  by rewrite (find_first "pkggodev-redirect" before after cookie Hb Hc).
Qed.

Lemma shouldRedirect_first_cookie_witness :
  let other := http.mkCookie "session" "on" "" "" None 0 false false in
  let first := http.mkCookie "pkggodev-redirect" "ON" "" "" None 0 false false in
  let second := http.mkCookie "pkggodev-redirect" "on" "" "" None 0 false false in
  let r := http.mkRequest (url.mkURL "" "godoc.org" "/net/http" "")
             "godoc.org" ∅ http.noBody [other; first; second] in
  (strings.HasPrefix (url.Host (http.URL r)) "api" = false
   ∧ http.FormValue r "redirect" = ""
   ∧ http.Cookies r = ([other] ++ first :: [second])%list)
  ∧ shouldRedirectToPkgGoDev r = false.
Proof.
  intros other first second r. split; [repeat split |].
  rewrite (shouldRedirect_first_cookie r [other] [second] first);
    [reflexivity | reflexivity | discriminate | discriminate | reflexivity
    | | reflexivity].
  repeat constructor. discriminate.
Defined.



(** ** URLs that need no escaping *)

Lemma escape_unescaped (mode : url.encoding) (s : string) :
  unescaped mode s = true → url.escape s mode = s.
Proof.
  unfold unescaped. induction s as [|c s IH]; [done |].
  cbn [list_ascii_of_string forallb url.escape].
  intros [Hc Hs]%andb_true_iff. apply negb_true_iff in Hc.
  unfold url.escapeByte. rewrite Hc, (IH Hs). reflexivity.
Qed.

(** [URL.String] on an [https] URL whose host and path need no escaping
    and whose path begins with a slash: the parts, one after the other. *)
Lemma String_https_verbatim (host rest raw : string) :
  host ≠ "" →
  unescaped url.encodeHost host = true →
  unescaped url.encodePath (String "/" rest) = true →
  url.String_ (url.mkURL "https" host (String "/" rest) raw)
  = "https://" ++ host ++ String "/" rest
    ++ (if String.eqb raw "" then "" else "?" ++ raw).
Proof.
  intros Hhost Heh Hep. unfold url.String_, url.EscapedPath, url.nonEmpty.
  cbn [url.Scheme url.Host url.Path url.RawQuery].
  rewrite (escape_unescaped _ _ Heh), (escape_unescaped _ _ Hep).
  apply String.eqb_neq in Hhost. rewrite Hhost.
  cbn [negb orb andb String.eqb Ascii.eqb].
  replace (String.eqb rest "*" && false) with false
    by (by rewrite andb_false_r).
  rewrite !append_assoc.
  destruct (String.eqb raw ""); reflexivity.
Qed.

(** X14. The URL of the event is the request's URL, text for text, when the
    host and the path need no escaping and the path begins with a slash:
    [https://], the host, the path, and the raw query after a [?] when
    there is one. *)
Theorem newGDDOEvent_url_verbatim (r : http.Request) (latency : Z)
    (isRobot : bool) (status : Z) (rest : string) :
  let host := if String.eqb (url.Host (http.URL r)) ""
              then http.Host r else url.Host (http.URL r) in
  host ≠ "" →
  unescaped url.encodeHost host = true →
  url.Path (http.URL r) = String "/" rest →
  unescaped url.encodePath (url.Path (http.URL r)) = true →
  URL (newGDDOEvent r latency isRobot status)
  = "https://" ++ host ++ url.Path (http.URL r)
    ++ (if String.eqb (url.RawQuery (http.URL r)) "" then ""
        else "?" ++ url.RawQuery (http.URL r)).
Proof.
  intros host Hhost Heh Hpath Hep.
  rewrite (proj1 (newGDDOEvent_target r latency isRobot status)).
  fold host. rewrite Hpath in *.
  by apply String_https_verbatim.
Qed.

Lemma newGDDOEvent_url_verbatim_witness :
  let r := http.mkRequest
             (url.mkURL "" "" "/github.com/gorilla/mux" "imports&x=a%20b")
             "godoc.org:443" ∅ http.noBody [] in
  (unescaped url.encodeHost (http.Host r) = true
   ∧ unescaped url.encodePath (url.Path (http.URL r)) = true)
  ∧ URL (newGDDOEvent r 3 false 200)
    = "https://godoc.org:443/github.com/gorilla/mux?imports&x=a%20b".
Proof.
  intros r. split; [split; reflexivity |].
  exact (newGDDOEvent_url_verbatim r 3 false 200 "github.com/gorilla/mux"
           ltac:(discriminate) eq_refl eq_refl eq_refl).
Defined.

(** X15. The location of a redirect keeps the path of the destination text
    for text when it begins with a slash and needs no escaping, as the
    import paths of packages do. *)
Theorem redirect_location_verbatim (godocURL : url.URL) (rest : string) :
  url.Path (pkgGoDevURL godocURL) = String "/" rest →
  unescaped url.encodePath (url.Path (pkgGoDevURL godocURL)) = true →
  url.String_ (pkgGoDevURL godocURL)
  = "https://pkg.go.dev" ++ url.Path (pkgGoDevURL godocURL)
    ++ "?" ++ url.RawQuery (pkgGoDevURL godocURL).
Proof.
  destruct (pkgGoDevURL_raw godocURL) as [path [raw [-> Hraw]]].
  cbn [url.Path url.RawQuery]. intros -> Hep.
  rewrite String_https_verbatim by done.
  assert (Hne : String.eqb raw "" = false).
  { destruct Hraw as [-> | [key [value [[-> | ->] ->]]]]; reflexivity. }
  rewrite Hne. reflexivity.
Qed.

Lemma redirect_location_verbatim_witness :
  let godocURL :=
    url.mkURL "http" "godoc.org" "/github.com/gorilla/mux" "importers" in
  (url.Path (pkgGoDevURL godocURL) = "/github.com/gorilla/mux"
   ∧ unescaped url.encodePath (url.Path (pkgGoDevURL godocURL)) = true)
  ∧ url.String_ (pkgGoDevURL godocURL)
    = "https://pkg.go.dev/github.com/gorilla/mux?tab=importedby&utm_source=godoc".
Proof.
  intros godocURL. split; [split; reflexivity |].
  exact (redirect_location_verbatim godocURL "github.com/gorilla/mux"
           eq_refl eq_refl).
Defined.

(** ** Teeing a request *)

(** X16. [makePkgGoDevRequest] posts at most once, and never again after a
    failure: a request whose path the filter accepts and whose event can
    be encoded is posted once to
    [https://teeproxy-dot-go-discovery.appspot.com], with the encoded
    event of [newGDDOEvent] as body, whatever [http.Post] answers; every
    other request is not posted. *)
Theorem makePkgGoDevRequest_posts (jsonMIMEType : string)
    (jsonMarshal : gddoEvent → string + string)
    (httpPost : string → string → string → error)
    (r : http.Request) (latency : Z) (isRobot : bool) (status : Z) :
  posts (makePkgGoDevRequest jsonMIMEType jsonMarshal httpPost
           r latency isRobot status)
  = if shouldTeeRequest (url.Path (http.URL r)) then
      match jsonMarshal (newGDDOEvent r latency isRobot status) with
      | inl body =>
          [("https://teeproxy-dot-go-discovery.appspot.com",
            jsonMIMEType, body)]
      | inr _ => []
      end
    else [].
Proof.
  unfold makePkgGoDevRequest.
  destruct (shouldTeeRequest (url.Path (http.URL r))); [| reflexivity].
  cbn [negb].
  destruct (jsonMarshal (newGDDOEvent r latency isRobot status)) as [body|err];
    [| reflexivity].
  change (url.String_ (url.mkURL "https" teeproxyHost "" ""))
    with "https://teeproxy-dot-go-discovery.appspot.com".
  by destruct (httpPost _ _ _).
Qed.

(** X17. Nothing under [/_ah/], no path with one of the five extensions and
    neither [/-/bot] nor [/-/refresh] reaches the tee proxy: for a path
    that [shouldTeeRequest] rejects there is no POST, no event is encoded,
    and the log line says so. *)
Theorem makePkgGoDevRequest_filtered (jsonMIMEType : string)
    (jsonMarshal : gddoEvent → string + string)
    (httpPost : string → string → string → error)
    (r : http.Request) (latency : Z) (isRobot : bool) (status : Z) :
  (∃ rest, url.Path (http.URL r) = "/_ah/" ++ rest)
  ∨ filepath.Ext (url.Path (http.URL r))
    ∈ [".css"; ".html"; ".js"; ".txt"; ".xml"]
  ∨ url.Path (http.URL r) = "/-/bot"
  ∨ url.Path (http.URL r) = "/-/refresh" →
  makePkgGoDevRequest jsonMIMEType jsonMarshal httpPost
    r latency isRobot status
  = mkTeeEffects [] (url.Path (http.URL r), notTeeingRequest).
Proof.
  intros Hfiltered. unfold makePkgGoDevRequest.
  assert (Hf : shouldTeeRequest (url.Path (http.URL r)) = false);
    [| by rewrite Hf].
  unfold shouldTeeRequest.
  destruct Hfiltered as [Hp | [He | Hu]].
  - apply HasPrefix_iff in Hp. by rewrite Hp.
  - destruct (strings.HasPrefix _ _); [done |].
    assert (Hl : lookupBool doNotTeeExtsToPkgGoDev
                   (filepath.Ext (url.Path (http.URL r))) = true).
    { apply lookupBool_exts. revert He.
      rewrite !elem_of_cons, elem_of_nil. tauto. }
    by rewrite Hl.
  - destruct (strings.HasPrefix _ _); [done |].
    destruct (lookupBool doNotTeeExtsToPkgGoDev _); [done |].
    apply lookupBool_urls in Hu. by rewrite Hu.
Qed.

Lemma makePkgGoDevRequest_filtered_witness :
  let r := http.mkRequest (url.mkURL "" "" "/_ah/health" "") "godoc.org"
             ∅ http.noBody [] in
  let marshal : gddoEvent → string + string := λ event, inl (URL event) in
  let post : string → string → string → error := λ _ _ _, None in
  (∃ rest, url.Path (http.URL r) = "/_ah/" ++ rest)
  ∧ makePkgGoDevRequest "application/json" marshal post r 1 false 200
    = mkTeeEffects [] ("/_ah/health", notTeeingRequest).
Proof.
  intros r marshal post.
  assert (Hp : ∃ rest, url.Path (http.URL r) = "/_ah/" ++ rest)
    by (by exists "health").
  split; [exact Hp |].
  exact (makePkgGoDevRequest_filtered "application/json" marshal post
           r 1 false 200 (or_introl Hp)).
Defined.

(** ** The event's flag and the handler *)

(** X18. For a request without the bypass marker the flag of its event
    tells what the handler does with it: with the flag set the answer is
    the redirect, with no cookie or with the one of [redirect=on]; with
    the flag clear the wrapped handler answers, on a response that holds
    no redirect of this handler. *)
Theorem event_flag_matches_handler (f : handler) (w : http.ResponseWriter)
    (r : http.Request) (latency : Z) (isRobot : bool) (status : Z) :
  userReturningFromPkgGoDev r = false →
  if UsePkgGoDev (newGDDOEvent r latency isRobot status)
  then pkgGoDevRedirectHandler f w r = redirectAnswer w [] r
       ∨ pkgGoDevRedirectHandler f w r = redirectAnswer w [cookieOn] r
  else ∃ w', pkgGoDevRedirectHandler f w r = f w' r
             ∧ http.Redirected w' = http.Redirected w.
Proof.
  intros Hret. cbn [newGDDOEvent UsePkgGoDev].
  destruct (String.eqb_spec (http.FormValue r "redirect") "off") as [Ho|Ho].
  { rewrite (shouldRedirect_off r Ho), (handler_off f w r Hret Ho).
    by eexists. }
  destruct (String.eqb_spec (http.FormValue r "redirect") "on") as [Hn|Hn].
  { rewrite (shouldRedirect_on r Hn), (handler_on f w r Hret Hn).
    destruct (strings.HasPrefix (url.Host (http.URL r)) "api"); cbn [negb].
    - by eexists.
    - by right. }
  rewrite (handler_plain f w r Hret Hn Ho).
  destruct (shouldRedirectToPkgGoDev r).
  - by left.
  - by exists w.
Qed.

Lemma event_flag_matches_handler_witness :
  let r := http.mkRequest (url.mkURL "" "godoc.org" "/net/http" "")
             "godoc.org" ∅ http.noBody
             [http.mkCookie "pkggodev-redirect" "on" "" "" None 0 false false] in
  let f : handler := λ w _, (w, Some "wrapped") in
  let w := http.mkResponseWriter [] None in
  userReturningFromPkgGoDev r = false
  ∧ UsePkgGoDev (newGDDOEvent r 7 false 302) = true
  ∧ (pkgGoDevRedirectHandler f w r = redirectAnswer w [] r
     ∨ pkgGoDevRedirectHandler f w r = redirectAnswer w [cookieOn] r).
Proof.
  intros r f w. split; [reflexivity |]. split; [reflexivity |].
  exact (event_flag_matches_handler f w r 7 false 302 eq_refl).
Defined.
